(** * Credential and token lifecycle of the auth service

    A shallow embedding of the Python sources under [services/auth/app]:
    [models/user.py], [utils/security.py], [schemas/auth.py],
    [services/token_service.py], [services/auth_service.py] and
    [routers/auth_router.py], followed by the properties established
    about them. *)

From Stdlib Require Import String Ascii ZArith NArith Bool List Lia.
Import ListNotations.

(* ====================================================================== *)
(** * Python values *)
(* ====================================================================== *)

Module Py.

(** A Python [str] is a sequence of Unicode code points. *)
Definition char := N.
Definition str := list char.

(** [bytes]: every element is below 256. *)
Definition bytes := list N.

(** Naive UTC [datetime] values, counted in microseconds. *)
Definition datetime := Z.

(** [timedelta(minutes=m)] in microseconds. *)
Definition timedelta_minutes (m : Z) : Z := (m * 60000000)%Z.

(** UUIDs are 128-bit numbers. *)
Definition UUID := N.

(** The exceptions that the modelled code paths can raise. *)
Inductive exn : Type :=
| NotImplementedError
| UnicodeEncodeError
| UnknownHashError      (* passlib.exc, a ValueError *)
| MalformedHashError    (* passlib.exc, a ValueError *)
| PasswordSizeError     (* passlib.exc, a ValueError *)
| PasswordValueError.   (* passlib.exc, a ValueError *)

(** The outcome of a call: a returned value or a raised exception. *)
Inductive result (A : Type) : Type :=
| Ret (a : A)
| Raise (e : exn).
Arguments Ret {A} a.
Arguments Raise {A} e.

Definition bind {A B} (m : result A) (k : A -> result B) : result B :=
  match m with
  | Ret a => k a
  | Raise e => Raise e
  end.

Definition returns {A} (m : result A) : bool :=
  match m with Ret _ => true | Raise _ => false end.

(** Equality of strings, as [==] on [str]. *)
Fixpoint str_eqb (a b : str) : bool :=
  match a, b with
  | [], [] => true
  | x :: a', y :: b' => N.eqb x y && str_eqb a' b'
  | _, _ => false
  end.

(** [s.startswith(p)] *)
Definition startswith (p s : str) : bool :=
  str_eqb (firstn (length p) s) p.

(** Decoding of a UTF-8 literal into code points; used only to write the
    string constants of the sources. *)
Fixpoint utf8_decode (bs : list N) : str :=
  match bs with
  | [] => []
  | b1 :: tl =>
      if (b1 <? 128)%N then b1 :: utf8_decode tl
      else
        match tl with
        | [] => [b1]
        | b2 :: tl2 =>
            if (b1 <? 224)%N
            then ((b1 mod 32) * 64 + b2 mod 64)%N :: utf8_decode tl2
            else
              match tl2 with
              | [] => [b1; b2]
              | b3 :: tl3 =>
                  if (b1 <? 240)%N
                  then ((b1 mod 16) * 4096 + (b2 mod 64) * 64 + b3 mod 64)%N
                         :: utf8_decode tl3
                  else
                    match tl3 with
                    | [] => [b1; b2; b3]
                    | b4 :: tl4 =>
                        ((b1 mod 8) * 262144 + (b2 mod 64) * 4096
                         + (b3 mod 64) * 64 + b4 mod 64)%N
                          :: utf8_decode tl4
                    end
              end
        end
  end.

Definition pystr (s : string) : str :=
  utf8_decode (map N_of_ascii (list_ascii_of_string s)).

(** [c.encode("utf-8")] for one code point; lone surrogates and values
    beyond U+10FFFF cannot be encoded. *)
Definition utf8_encode_char (c : char) : option bytes :=
  if (c <? 128)%N then Some [c]
  else if (c <? 2048)%N then Some [192 + c / 64; 128 + c mod 64]%N
  else if (55296 <=? c)%N && (c <=? 57343)%N then None
  else if (c <? 65536)%N
       then Some [224 + c / 4096; 128 + (c / 64) mod 64; 128 + c mod 64]%N
  else if (c <? 1114112)%N
       then Some [240 + c / 262144; 128 + (c / 4096) mod 64;
                  128 + (c / 64) mod 64; 128 + c mod 64]%N
  else None.

(** [s.encode("utf-8")] *)
Fixpoint utf8_encode (s : str) : result bytes :=
  match s with
  | [] => Ret []
  | c :: s' =>
      match utf8_encode_char c with
      | None => Raise UnicodeEncodeError
      | Some bs =>
          match utf8_encode s' with
          | Ret rest => Ret (bs ++ rest)
          | Raise e => Raise e
          end
      end
  end.

End Py.
Import Py.

Declare Scope py_scope.
Delimit Scope py_scope with py.
Notation "x <- m ;; k" := (Py.bind m (fun x => k))
  (at level 61, m at next level, right associativity) : py_scope.
Notation "m ;;; k" := (Py.bind m (fun _ => k))
  (at level 61, right associativity) : py_scope.
Open Scope py_scope.

(* ====================================================================== *)
(** * models/user.py *)
(* ====================================================================== *)

Module Models.

Inductive AuthProvider := LOCAL | GOOGLE | FACEBOOK.

Inductive UserRole := CUSTOMER | SELLER | ADMIN.

Definition UserRole_value (r : UserRole) : str :=
  match r with
  | CUSTOMER => pystr "customer"
  | SELLER => pystr "seller"
  | ADMIN => pystr "admin"
  end.

(** The columns of [User]. *)
Record User := mkUser {
  id : UUID;
  email : str;
  is_active : bool;
  is_verified : bool;
  role : UserRole;
  created_at : datetime;
  updated_at : datetime;
  failed_login_attempts : Z;
  locked_until : option datetime
}.

(** The columns of [RefreshToken]. *)
Record RefreshToken := mkRefreshToken {
  rt_id : UUID;
  user_id : UUID;
  token_hash : str;
  expires_at : datetime;
  rt_created_at : datetime;
  revoked : bool;
  device_info : option str
}.

(** [RefreshToken.is_valid]; the clock reading [datetime.utcnow()] is the
    argument [utcnow]. *)
Definition is_valid (utcnow : datetime) (self : RefreshToken) : bool :=
  if revoked self then false
  else if (utcnow >? expires_at self)%Z then false
  else true.

End Models.

(* ====================================================================== *)
(** * config.py *)
(* ====================================================================== *)

Module Config.

(** The fields of [Settings] read by the modelled code. *)
Record Settings := mkSettings {
  SECRET_KEY : str;
  JWT_ALGORITHM : str;
  ACCESS_TOKEN_EXPIRE_MINUTES : Z;
  REFRESH_TOKEN_EXPIRE_DAYS : Z;
  MAX_LOGIN_ATTEMPTS : Z;
  LOGIN_LOCKOUT_MINUTES : Z;
  RATE_LIMIT_PER_MINUTE : Z
}.

(** [Settings()] with no environment override. *)
Definition settings : Settings := {|
  SECRET_KEY := pystr "CAMBIAR_ESTA_CLAVE_EN_PRODUCCION_usar_openssl_rand_hex_32";
  JWT_ALGORITHM := pystr "HS256";
  ACCESS_TOKEN_EXPIRE_MINUTES := 30;
  REFRESH_TOKEN_EXPIRE_DAYS := 7;
  MAX_LOGIN_ATTEMPTS := 5;
  LOGIN_LOCKOUT_MINUTES := 15;
  RATE_LIMIT_PER_MINUTE := 60
|}.

End Config.

(* ====================================================================== *)
(** * The storage behind an [AsyncSession] *)
(* ====================================================================== *)

Module Database.

Record UserCredential := mkUserCredential {
  cred_user_id : UUID;
  provider : Models.AuthProvider;
  hashed_password : option str
}.

(** The rows reachable through a session. *)
Record AsyncSession := mkSession {
  users : list Models.User;
  credentials : list UserCredential;
  refresh_tokens : list Models.RefreshToken
}.

(** Whether an account with the given email is stored. *)
Definition account_exists (db : AsyncSession) (email : str) : bool :=
  existsb (fun u => str_eqb (Models.email u) email) (users db).

End Database.

(* ====================================================================== *)
(** * schemas/auth.py *)
(* ====================================================================== *)

Module Schemas.

(** What a failed field validation reports. *)
Inductive error_type :=
| string_too_short
| string_too_long
| value_error.

Inductive field_name := f_email | f_password | f_password_confirm.

(** pydantic's [ValidationError]: the failing fields, in field order. *)
Definition ValidationError := list (field_name * error_type).

Record UserRegister := mkUserRegister {
  email : str;
  password : str;
  password_confirm : str
}.

(** A request body whose three fields are present and are strings, as the
    field validators receive them; a body that lacks a field or carries
    another type in it is the matter of
    [RequestSchemas.UserRegister_model_validate]. *)
Record RegisterInput := mkRegisterInput {
  in_email : str;
  in_password : str;
  in_password_confirm : str
}.

Record TokenData := mkTokenData {
  sub : str;
  td_email : option str;
  td_role : option str;
  exp : option datetime
}.

Record PasswordResetRequest := mkPasswordResetRequest {
  prr_email : str
}.

Record MessageResponse := mkMessageResponse {
  message : str;
  success : bool
}.

(** [MessageResponse(message=m)]: [success] takes its default. *)
Definition MessageResponse_new (m : str) : MessageResponse :=
  {| message := m; success := true |}.

Section UserRegisterValidation.

(** [EmailStr] is checked by the email-validator package: [None] for a
    rejected address, otherwise the normalised address. *)
Variable EmailStr : str -> option str.

(** [UserRegister.validate_password_strength]: the checks are commented
    out, the value is returned as it came. *)
Definition validate_password_strength (v : str) : result str := Ret v.

(** [email: EmailStr = Field(...)] *)
Definition validate_email_field (v : str) : ValidationError + str :=
  match EmailStr v with
  | Some e => inr e
  | None => inl [(f_email, value_error)]
  end.

(** [password: str = Field(..., min_length=8, max_length=100)] followed by
    the field validator. *)
Definition validate_password_field (v : str) : ValidationError + str :=
  if (length v <? 8)%nat then inl [(f_password, string_too_short)]
  else if (100 <? length v)%nat then inl [(f_password, string_too_long)]
  else
    match validate_password_strength v with
    | Ret v' => inr v'
    | Raise _ => inl [(f_password, value_error)]
    end.

(** [password_confirm: str = Field(...)]: required, unconstrained. *)
Definition validate_password_confirm_field (v : str)
  : ValidationError + str := inr v.

Definition errors_of {A} (r : ValidationError + A) : ValidationError :=
  match r with inl es => es | inr _ => [] end.

(** [UserRegister.model_validate]: every field is validated, the errors
    are collected; there is no model-level validator. *)
Definition UserRegister_validate (input : RegisterInput)
  : ValidationError + UserRegister :=
  let e := validate_email_field (in_email input) in
  let p := validate_password_field (in_password input) in
  let c := validate_password_confirm_field (in_password_confirm input) in
  match e, p, c with
  | inr e', inr p', inr c' =>
      inr {| email := e'; password := p'; password_confirm := c' |}
  | _, _, _ => inl (errors_of e ++ errors_of p ++ errors_of c)
  end.

End UserRegisterValidation.

End Schemas.

(* ====================================================================== *)
(** * services/token_service.py *)
(* ====================================================================== *)

Module TokenService.

Record TokenService := mkTokenService {
  secret_key : str;
  algorithm : str;
  access_expire_minutes : Z;
  refresh_expire_days : Z
}.

(** [TokenService.__init__] *)
Definition init (settings : Config.Settings) : TokenService := {|
  secret_key := Config.SECRET_KEY settings;
  algorithm := Config.JWT_ALGORITHM settings;
  access_expire_minutes := Config.ACCESS_TOKEN_EXPIRE_MINUTES settings;
  refresh_expire_days := Config.REFRESH_TOKEN_EXPIRE_DAYS settings
|}.

(** [additional_claims]: a dict from claim names to strings. *)
Definition claims := list (str * str).

(** [TokenService.create_access_token]: the body is the [raise] that
    follows the docstring. *)
Definition create_access_token (self : TokenService) (user : Models.User)
    (additional_claims : option claims) : result str :=
  Raise NotImplementedError.

(** [TokenService.decode_access_token] *)
Definition decode_access_token (self : TokenService) (token : str)
    : result (option Schemas.TokenData) :=
  Raise NotImplementedError.

End TokenService.

(* ====================================================================== *)
(** * services/auth_service.py *)
(* ====================================================================== *)

Module AuthService.

Record AuthService := mkAuthService {
  db : Database.AsyncSession
}.

(** [AuthService.__init__] *)
Definition init (db : Database.AsyncSession) : AuthService := {| db := db |}.

(** [_get_user_by_email]: the query is commented out; the body is [pass],
    so the coroutine yields [None]. *)
Definition _get_user_by_email (self : AuthService) (email : str)
    : option Models.User := None.

(** [_is_user_locked]: the comparison is commented out; the body is
    [return False]. *)
Definition _is_user_locked (self : AuthService) (user : Models.User)
    : bool := false.

(** [_handle_failed_login]: the body is [pass]. The user object and the
    session are mutable, so both are threaded through. *)
Definition _handle_failed_login (self : AuthService) (user : Models.User)
    : result unit * (AuthService * Models.User) :=
  (Ret tt, (self, user)).

(** [_handle_successful_login]: the body is [pass]. *)
Definition _handle_successful_login (self : AuthService)
    (user : Models.User) : result unit * (AuthService * Models.User) :=
  (Ret tt, (self, user)).

(** [request_password_reset]: the body is [pass]. *)
Definition request_password_reset (self : AuthService) (email : str)
    : result unit * AuthService :=
  (Ret tt, self).

End AuthService.

(* ====================================================================== *)
(** * routers/auth_router.py *)
(* ====================================================================== *)

Module Router.

Definition reset_message : str :=
  pystr "Si el email existe, recibirás instrucciones para resetear tu password".

(** [POST /password/reset]. The call into the service is commented out;
    the handler builds its answer without looking at the session. *)
Definition request_password_reset
    (request_data : Schemas.PasswordResetRequest)
    (db : Database.AsyncSession)
    : result Schemas.MessageResponse * Database.AsyncSession :=
  (Ret (Schemas.MessageResponse_new reset_message), db).

End Router.

(* ====================================================================== *)
(** * The hashing context behind [pwd_context] *)
(* ====================================================================== *)

(** [utils/security.py] builds [CryptContext(schemes=["bcrypt"])] from the
    passlib package and forwards to its [hash] and [verify]. passlib and
    the bcrypt library are not part of the repository; this module follows
    passlib's bcrypt handler: how a digest string is laid out and parsed,
    which inputs are refused with an exception, and where the salt comes
    from. The Blowfish key schedule itself stays a parameter. *)
Module Passlib.

(** The alphabet of bcrypt's base-64 variant. *)
Definition bcrypt64_charmap : str :=
  pystr "./ABCDEFGHIJKLMNOPQRSTUVWXYZabcdefghijklmnopqrstuvwxyz0123456789".

Definition b64char (i : N) : char :=
  nth (N.to_nat (i mod 64)) bcrypt64_charmap 46%N.

Fixpoint b64index_from (cs : str) (k : N) (c : char) : N :=
  match cs with
  | [] => 0%N
  | x :: cs' => if N.eqb x c then k else b64index_from cs' (N.succ k) c
  end.

Definition b64index (c : char) : N := b64index_from bcrypt64_charmap 0 c.

Definition in_charmap (c : char) : bool :=
  existsb (N.eqb c) bcrypt64_charmap.

(** The entropy source: the successive answers of the system random
    number generator, and how many were consumed. *)
Record Rng := mkRng {
  draws : nat -> N;
  pos : nat
}.

(** [rng.randrange(0, upper)] *)
Definition randrange (upper : N) (rng : Rng) : N * Rng :=
  ((draws rng (pos rng) mod upper)%N,
   {| draws := draws rng; pos := S (pos rng) |}).

(** The digits of [value] in base 64, least significant first. *)
Fixpoint digits64 (count : nat) (value : N) : list N :=
  match count with
  | O => []
  | S n => (value mod 64)%N :: digits64 n (value / 64)%N
  end.

(** [getrandstr(rng, bcrypt64.charmap, count)]: one draw below
    [64 ** count], spelled in the alphabet. *)
Definition getrandstr (count : nat) (rng : Rng) : str * Rng :=
  let (value, rng') := randrange (64 ^ N.of_nat count) rng in
  (map b64char (digits64 count value), rng').

(** [bcrypt64.repair_unused] on a 22-character salt: the last character
    carries two bits of salt; its four padding bits are cleared. *)
Definition repair_unused (s : str) : str :=
  match s with
  | [] => []
  | _ => removelast s ++ [b64char (N.land (b64index (last s 46%N)) 48)]
  end.

(** [bcrypt._generate_salt] *)
Definition generate_salt (rng : Rng) : str * Rng :=
  let (s, rng') := getrandstr 22 rng in
  (repair_unused s, rng').

Definition IDENT_2 : str := pystr "$2$".
Definition IDENT_2A : str := pystr "$2a$".
Definition IDENT_2X : str := pystr "$2x$".
Definition IDENT_2Y : str := pystr "$2y$".
Definition IDENT_2B : str := pystr "$2b$".

Definition ident_values : list str :=
  [IDENT_2; IDENT_2A; IDENT_2X; IDENT_2Y; IDENT_2B].

(** A parsed digest: the handler instance. *)
Record bcrypt := mkBcrypt {
  ident : str;
  rounds : N;
  salt : str;
  checksum : option str
}.

(** ["%02d" % rounds] for a cost below 100. *)
Definition two_digits (r : N) : str := [48 + r / 10; 48 + r mod 10]%N.

Definition dollar : char := 36%N.

(** [bcrypt.to_string] *)
Definition to_string (h : bcrypt) : str :=
  ident h ++ two_digits (rounds h) ++ [dollar] ++ salt h
    ++ match checksum h with Some chk => chk | None => [] end.

(** [bcrypt.identify]: the string starts with one of the prefixes. *)
Definition identify (hash : str) : bool :=
  existsb (fun i => startswith i hash) ident_values.

(** [_parse_ident]: the first matching prefix and what follows it. *)
Definition parse_ident (hash : str) : option (str * str) :=
  match find (fun i => startswith i hash) ident_values with
  | Some i => Some (i, skipn (length i) hash)
  | None => None
  end.

(** [rounds_str, data = tail.split("$")]: exactly one dollar sign. *)
Fixpoint split_dollar (s : str) : option (str * str) :=
  match s with
  | [] => None
  | c :: s' =>
      if N.eqb c dollar
      then if existsb (N.eqb dollar) s' then None else Some ([], s')
      else
        match split_dollar s' with
        | Some (a, b) => Some (c :: a, b)
        | None => None
        end
  end.

Definition is_ascii_digit (c : char) : bool :=
  (48 <=? c)%N && (c <=? 57)%N.

(** [int(rounds_str)] where [rounds_str == "%02d" % rounds], within the
    cost range 4..31 of the handler. *)
Definition parse_rounds (rs : str) : option N :=
  match rs with
  | [a; b] =>
      if is_ascii_digit a && is_ascii_digit b
      then
        let r := ((a - 48) * 10 + (b - 48))%N in
        if (4 <=? r)%N && (r <=? 31)%N then Some r else None
      else None
  | _ => None
  end.

(** [bcrypt.from_string] with the checks of the constructor (salt of 22
    characters, checksum absent or of 31 characters, both over the
    alphabet). Every failure is one of passlib's [ValueError]s; they are
    not told apart. passlib also clears the unused padding bits of a salt
    or checksum written by hand; that repair is left out here, the digests
    made by [hash] have none to clear. *)
Definition from_string (hash : str) : result bcrypt :=
  match parse_ident hash with
  | None => Raise MalformedHashError
  | Some (i, tail) =>
      if str_eqb i IDENT_2X then Raise MalformedHashError
      else
        match split_dollar tail with
        | None => Raise MalformedHashError
        | Some (rounds_str, data) =>
            match parse_rounds rounds_str with
            | None => Raise MalformedHashError
            | Some r =>
                let s := firstn 22 data in
                let chk := skipn 22 data in
                if negb (length s =? 22)%nat || negb (forallb in_charmap s)
                then Raise MalformedHashError
                else
                  match chk with
                  | [] => Ret (mkBcrypt i r s None)
                  | _ =>
                      if negb (length chk =? 31)%nat
                         || negb (forallb in_charmap chk)
                      then Raise MalformedHashError
                      else Ret (mkBcrypt i r s (Some chk))
                  end
            end
        end
  end.

Definition MAX_PASSWORD_SIZE : nat := 4096.

(** [uh.validate_secret]: over-long secrets are refused. *)
Definition validate_secret {A} (secret : list A) : result unit :=
  if (MAX_PASSWORD_SIZE <? length secret)%nat
  then Raise PasswordSizeError
  else Ret tt.

(** [bcrypt._norm_digest_args]: the secret as UTF-8 bytes, with no NUL. *)
Definition norm_digest_args (secret : str) : result bytes :=
  key <- utf8_encode secret ;;
  validate_secret key ;;;
  if existsb (N.eqb 0) key then Raise PasswordValueError else Ret key.

(** The secrets that neither [hash] nor [verify] refuses, with the key
    bytes they stand for. *)
Definition accepts (secret : str) (key : bytes) : Prop :=
  validate_secret secret = Ret tt /\ norm_digest_args secret = Ret key.

(** The 184-bit checksum in the alphabet: 31 characters, most significant
    first, the last one padded with two zero bits. *)
Definition encode_checksum (raw : N) : str :=
  map b64char (rev (digits64 31 ((raw mod 2 ^ 184) * 4)%N)).

Section Backend.

(** The Blowfish key schedule of the bcrypt library, from prefix, cost,
    salt and key to the raw checksum. *)
Variable bcrypt_raw : str -> N -> str -> bytes -> N.

(** [bcrypt._calc_checksum]: bcrypt reads at most 72 bytes of the key. *)
Definition calc_checksum (h : bcrypt) (secret : str) : result str :=
  key <- norm_digest_args secret ;;
  Ret (encode_checksum
         (bcrypt_raw (ident h) (rounds h) (salt h) (firstn 72 key))).

(** [GenericHandler.hash] for bcrypt with its defaults: prefix [$2b$],
    cost 12, a new salt. *)
Definition hash (secret : str) (rng : Rng) : result str * Rng :=
  match validate_secret secret with
  | Raise e => (Raise e, rng)
  | Ret _ =>
      let (s, rng') := generate_salt rng in
      let h := mkBcrypt IDENT_2B 12 s None in
      match calc_checksum h secret with
      | Raise e => (Raise e, rng')
      | Ret chk => (Ret (to_string (mkBcrypt IDENT_2B 12 s (Some chk))), rng')
      end
  end.

(** The digest that [hash] assembles from a salt and the key bytes. *)
Definition default_digest (s : str) (key : bytes) : str :=
  to_string
    (mkBcrypt IDENT_2B 12 s
       (Some (encode_checksum (bcrypt_raw IDENT_2B 12 s (firstn 72 key))))).

(** [GenericHandler.verify] *)
Definition verify (secret hash : str) : result bool :=
  validate_secret secret ;;;
  h <- from_string hash ;;
  match checksum h with
  | None => Raise MalformedHashError
  | Some chk =>
      c <- calc_checksum h secret ;;
      Ret (str_eqb c chk)
  end.

(** [CryptContext.hash] with the single scheme bcrypt. *)
Definition CryptContext_hash (secret : str) (rng : Rng)
  : result str * Rng := hash secret rng.

(** [CryptContext.verify]: a string that no scheme identifies is
    refused, otherwise the handler decides. *)
Definition CryptContext_verify (secret hash : str) : result bool :=
  if identify hash then verify secret hash
  else Raise UnknownHashError.

End Backend.

End Passlib.

(* ====================================================================== *)
(** * utils/security.py *)
(* ====================================================================== *)

Module Security.

Section Passwords.

Variable bcrypt_raw : str -> N -> str -> bytes -> N.

(** [hash_password]: [pwd_context.hash(password)]. *)
Definition hash_password (password : str) (rng : Passlib.Rng)
  : result str * Passlib.Rng :=
  Passlib.CryptContext_hash bcrypt_raw password rng.

(** [verify_password]: [pwd_context.verify(plain, hashed)], with no
    handler around the call. *)
Definition verify_password (plain_password hashed_password : str)
  : result bool :=
  Passlib.CryptContext_verify bcrypt_raw plain_password hashed_password.

End Passwords.

Definition msg_length : str :=
  pystr "La contraseña debe tener al menos 8 caracteres".
Definition msg_upper : str :=
  pystr "La contraseña debe contener al menos una mayúscula".
Definition msg_lower : str :=
  pystr "La contraseña debe contener al menos una minúscula".
Definition msg_digit : str :=
  pystr "La contraseña debe contener al menos un número".

Section Strength.

(** [str.isupper], [str.islower] and [str.isdigit] on one character:
    tables of the Unicode database. *)
Variables isupper islower isdigit : char -> bool.

(** [errors.append(m)] when [cond] holds. *)
Definition append_if (cond : bool) (m : str) (errors : list str)
  : list str :=
  if cond then errors ++ [m] else errors.

(** [validate_password_strength] *)
Definition validate_password_strength (password : str)
  : bool * list str :=
  let errors := [] in
  let errors := append_if (length password <? 8)%nat msg_length errors in
  let errors := append_if (negb (existsb isupper password)) msg_upper errors in
  let errors := append_if (negb (existsb islower password)) msg_lower errors in
  let errors := append_if (negb (existsb isdigit password)) msg_digit errors in
  ((length errors =? 0)%nat, errors).

End Strength.

End Security.

(* ====================================================================== *)
(** * The stated properties, in their own words *)
(* ====================================================================== *)

Module Spec.

(** Data model: a token is valid iff [revoked == false] and
    [now < expires_at]. *)
Definition token_valid (revoked : bool) (expires_at now : datetime) : bool :=
  negb revoked && (now <? expires_at)%Z.

(** Lockout policy state. *)
Record LockoutState := mkLockoutState {
  failedAttempts : Z;
  lockedUntil : option datetime
}.

Definition lockout_of (u : Models.User) : LockoutState :=
  {| failedAttempts := Models.failed_login_attempts u;
     lockedUntil := Models.locked_until u |}.

(** [isLocked(state, now)]: true iff [lockedUntil] is set and
    [now < lockedUntil]. *)
Definition isLocked (state : LockoutState) (now : datetime) : bool :=
  match lockedUntil state with
  | Some t => (now <? t)%Z
  | None => false
  end.

(** [onFailure(state, maxAttempts, lockoutDuration, now)]: increments
    [failedAttempts]; if the new count reaches [maxAttempts], sets
    [lockedUntil = now + lockoutDuration]. *)
Definition onFailure (state : LockoutState) (maxAttempts : Z)
    (lockoutDuration : Z) (now : datetime) : LockoutState :=
  let n := (failedAttempts state + 1)%Z in
  {| failedAttempts := n;
     lockedUntil := if (maxAttempts <=? n)%Z
                    then Some (now + lockoutDuration)%Z
                    else lockedUntil state |}.

(** The rules of password strength. *)
Inductive rule := MinLength | HasUpper | HasLower | HasDigit.

Definition rules : list rule := [MinLength; HasUpper; HasLower; HasDigit].

Definition rule_message (r : rule) : str :=
  match r with
  | MinLength => Security.msg_length
  | HasUpper => Security.msg_upper
  | HasLower => Security.msg_lower
  | HasDigit => Security.msg_digit
  end.

Section Strength.

Variables isupper islower isdigit : char -> bool.

Definition contains (class : char -> bool) (p : str) : Prop :=
  exists c, In c p /\ class c = true.

Definition satisfies (r : rule) (p : str) : Prop :=
  match r with
  | MinLength => (8 <= length p)%nat
  | HasUpper => contains isupper p
  | HasLower => contains islower p
  | HasDigit => contains isdigit p
  end.

Definition violated (r : rule) (p : str) : bool :=
  match r with
  | MinLength => (length p <? 8)%nat
  | HasUpper => negb (existsb isupper p)
  | HasLower => negb (existsb islower p)
  | HasDigit => negb (existsb isdigit p)
  end.

Definition strong (p : str) : Prop :=
  (8 <= length p)%nat /\ contains isupper p /\ contains islower p
  /\ contains isdigit p.

End Strength.

(** What a well-formed bcrypt digest is: one of the prefixes [$2$], [$2a$],
    [$2y$], [$2b$], a two-digit cost between 04 and 31, a dollar sign, 22
    characters of salt and 31 of checksum, both over the bcrypt alphabet.
    Every other string is a malformed digest. *)
Definition is_bcrypt_digest (d : str) : Prop :=
  exists i r s chk,
    In i [Passlib.IDENT_2; Passlib.IDENT_2A; Passlib.IDENT_2Y; Passlib.IDENT_2B]
    /\ (4 <= r <= 31)%N
    /\ length s = 22%nat /\ Forall (fun c => In c Passlib.bcrypt64_charmap) s
    /\ length chk = 31%nat /\ Forall (fun c => In c Passlib.bcrypt64_charmap) chk
    /\ d = i ++ Passlib.two_digits r ++ [Passlib.dollar] ++ s ++ chk.

End Spec.

(* ====================================================================== *)
(** * Concrete inputs used in the statements below *)
(* ====================================================================== *)

Module Examples.

(** A refresh token that expires at instant 1000 and was not revoked. *)
Definition token_1000 : Models.RefreshToken := {|
  Models.rt_id := 1%N; Models.user_id := 7%N; Models.token_hash := pystr "ab12";
  Models.expires_at := 1000%Z; Models.rt_created_at := 0%Z;
  Models.revoked := false; Models.device_info := None
|}.

(** An account with four failed attempts, locked until instant 2000. *)
Definition locked_user : Models.User := {|
  Models.id := 7%N; Models.email := pystr "a@x.com";
  Models.is_active := true; Models.is_verified := false;
  Models.role := Models.CUSTOMER;
  Models.created_at := 0%Z; Models.updated_at := 0%Z;
  Models.failed_login_attempts := 4%Z;
  Models.locked_until := Some 2000%Z
|}.

(** The same account, never locked. *)
Definition fresh_user : Models.User := {|
  Models.id := 7%N; Models.email := pystr "a@x.com";
  Models.is_active := true; Models.is_verified := false;
  Models.role := Models.CUSTOMER;
  Models.created_at := 0%Z; Models.updated_at := 0%Z;
  Models.failed_login_attempts := 4%Z;
  Models.locked_until := None
|}.

Definition empty_db : Database.AsyncSession :=
  {| Database.users := []; Database.credentials := [];
     Database.refresh_tokens := [] |}.

Definition db_with_account : Database.AsyncSession :=
  {| Database.users := [fresh_user]; Database.credentials := [];
     Database.refresh_tokens := [] |}.

(** A stand-in for the Blowfish parameter where a statement is evaluated. *)
Definition example_raw (i : str) (r : N) (s : str) (k : bytes) : N :=
  fold_left (fun a b => (a * 257 + b + 1)%N) (s ++ k) (r + 7)%N.

Definition example_rng : Passlib.Rng :=
  Passlib.mkRng
    (fun n => ((N.of_nat n + 1) * 3141592653589793238462643383279502884197)%N) 0.

(** ASCII instances of the character tables. *)
Definition ascii_isupper (c : char) : bool := (65 <=? c)%N && (c <=? 90)%N.
Definition ascii_islower (c : char) : bool := (97 <=? c)%N && (c <=? 122)%N.
Definition ascii_isdigit (c : char) : bool := (48 <=? c)%N && (c <=? 57)%N.

(** An address check that accepts what contains an at sign. *)
Definition example_EmailStr (s : str) : option str :=
  if existsb (N.eqb 64) s then Some s else None.

(** Two passwords of 73 characters that differ in the last one only. *)
Definition long_a : str := repeat 97%N 72 ++ [98%N].
Definition long_b : str := repeat 97%N 72 ++ [99%N].

(** What the stand-ins give for the password [Secret123] on the first and
    on the second call. *)
Definition first_digest : str :=
  pystr "$2b$12$jzdYjpO3AIqMXBntGwJc5eMLWIiFCIZa/kvI3nPWZ7GnxLOElxbtO".
Definition second_digest : str :=
  pystr "$2b$12$Ip9yIVfwDSWbwEQdPiV60.cQk8Oj7bMjTbPrbVMmuuQgYHuW7a/li".

Definition rng_after (n : nat) : Passlib.Rng :=
  {| Passlib.draws := Passlib.draws example_rng; Passlib.pos := n |}.

Definition weak_registration : Schemas.RegisterInput := {|
  Schemas.in_email := pystr "a@x.com";
  Schemas.in_password := pystr "password";
  Schemas.in_password_confirm := pystr "different"
|}.

End Examples.

(* ====================================================================== *)
(** * Built-ins used by the rest of the service *)
(* ====================================================================== *)

Module Builtins.

(** What the remaining code paths raise. *)
Inductive raised : Type :=
| HTTPException (status_code : N) (detail : str)
| ValueError
| OverflowError
| MemoryError
| Error (e : Py.exn).

Inductive outcome (A : Type) : Type :=
| Returns (a : A)
| Raises (r : raised).
Arguments Returns {A} a.
Arguments Raises {A} r.

Definition HTTP_501_NOT_IMPLEMENTED : N := 501.

(** [s.lstrip(...)]: the leading characters of the given class go. *)
Fixpoint lstrip_by (f : char -> bool) (s : str) : str :=
  match s with
  | [] => []
  | c :: s' => if f c then lstrip_by f s' else s
  end.

(** [s.rstrip(...)]: the trailing characters of the given class go. *)
Fixpoint rstrip_by (f : char -> bool) (s : str) : str :=
  match s with
  | [] => []
  | c :: s' =>
      match rstrip_by f s' with
      | [] => if f c then [] else [c]
      | r => c :: r
      end
  end.

(** [s.strip()], with [isspace] the whitespace table of [str]. *)
Definition strip (isspace : char -> bool) (s : str) : str :=
  rstrip_by isspace (lstrip_by isspace s).

(** [s.split(sep)] for a one-character separator: every occurrence cuts,
    empty pieces are kept. *)
Fixpoint split (sep : char) (s : str) : list str :=
  match s with
  | [] => [[]]
  | c :: s' =>
      if N.eqb c sep then [] :: split sep s'
      else
        match split sep s' with
        | piece :: rest => (c :: piece) :: rest
        | [] => [[c]]
        end
  end.

(** [sep.join(pieces)] *)
Fixpoint join (sep : char) (pieces : list str) : str :=
  match pieces with
  | [] => []
  | [p] => p
  | p :: rest => p ++ sep :: join sep rest
  end.

Definition comma : char := 44%N.

End Builtins.

(* ====================================================================== *)
(** * The standard library's [secrets] and [hashlib], as far as used *)
(* ====================================================================== *)

Module Secrets.

Definition urlsafe_alphabet : str :=
  pystr "ABCDEFGHIJKLMNOPQRSTUVWXYZabcdefghijklmnopqrstuvwxyz0123456789-_".

Definition b64char (i : N) : char :=
  nth (N.to_nat (i mod 64)) urlsafe_alphabet 65%N.

(** The padding character [=]. *)
Definition pad : char := 61%N.

(** [base64.urlsafe_b64encode]: three bytes give four characters, a rest
    of one or two bytes is padded. *)
Fixpoint urlsafe_b64encode (bs : bytes) : str :=
  match bs with
  | [] => []
  | [a] => [b64char (a / 4); b64char ((a mod 4) * 16); pad; pad]
  | [a; b] =>
      [b64char (a / 4); b64char ((a mod 4) * 16 + b / 16);
       b64char ((b mod 16) * 4); pad]
  | a :: b :: c :: rest =>
      b64char (a / 4) :: b64char ((a mod 4) * 16 + b / 16)
        :: b64char ((b mod 16) * 4 + c / 64) :: b64char (c mod 64)
        :: urlsafe_b64encode rest
  end.

(** [n] bytes taken off the entropy of the system. *)
Fixpoint random_bytes (n : nat) (entropy : N) : bytes :=
  match n with
  | O => []
  | S k => (entropy mod 256)%N :: random_bytes k (entropy / 256)%N
  end.

(** The largest size a C [ssize_t] holds. *)
Definition PY_SSIZE_T_MAX : Z := (2 ^ 63 - 1)%Z.

Section Memory.

(** Whether the system finds the memory for a request of that many
    bytes. *)
Variable allocates : Z -> bool.

(** [os.urandom(n)]: a size outside [ssize_t] is an [OverflowError], a
    negative one a [ValueError], a failed allocation a [MemoryError]. *)
Definition urandom (n : Z) (entropy : N) : Builtins.outcome bytes :=
  if (n <? - PY_SSIZE_T_MAX - 1)%Z || (PY_SSIZE_T_MAX <? n)%Z
  then Builtins.Raises Builtins.OverflowError
  else if (n <? 0)%Z then Builtins.Raises Builtins.ValueError
  else if allocates n
       then Builtins.Returns (random_bytes (Z.to_nat n) entropy)
       else Builtins.Raises Builtins.MemoryError.

(** [secrets.token_bytes(nbytes)] *)
Definition token_bytes (nbytes : Z) (entropy : N) : Builtins.outcome bytes :=
  urandom nbytes entropy.

(** [secrets.token_urlsafe(nbytes)]:
    [urlsafe_b64encode(tok).rstrip(b'=').decode('ascii')]. *)
Definition token_urlsafe (nbytes : Z) (entropy : N) : Builtins.outcome str :=
  match token_bytes nbytes entropy with
  | Builtins.Returns tok =>
      Builtins.Returns
        (Builtins.rstrip_by (N.eqb pad) (urlsafe_b64encode tok))
  | Builtins.Raises r => Builtins.Raises r
  end.

End Memory.

(** The position of a character in the alphabet. *)
Fixpoint index_from (cs : str) (k : N) (c : char) : N :=
  match cs with
  | [] => 0%N
  | x :: cs' => if N.eqb x c then k else index_from cs' (N.succ k) c
  end.

Definition b64index (c : char) : N := index_from urlsafe_alphabet 0 c.

(** [base64.urlsafe_b64decode] on an unpadded string: the inverse used to
    tell tokens apart. *)
Fixpoint urlsafe_b64decode (s : str) : bytes :=
  match s with
  | c1 :: c2 :: c3 :: c4 :: rest =>
      (b64index c1 * 4 + b64index c2 / 16)%N
        :: ((b64index c2 mod 16) * 16 + b64index c3 / 4)%N
        :: ((b64index c3 mod 4) * 64 + b64index c4)%N
        :: urlsafe_b64decode rest
  | [c1; c2; c3] =>
      [(b64index c1 * 4 + b64index c2 / 16)%N;
       ((b64index c2 mod 16) * 16 + b64index c3 / 4)%N]
  | [c1; c2] => [(b64index c1 * 4 + b64index c2 / 16)%N]
  | _ => []
  end.

End Secrets.

Module Hashlib.

Definition hexdigits : str := pystr "0123456789abcdef".

Definition hexchar (i : N) : char :=
  nth (N.to_nat (i mod 16)) hexdigits 48%N.

(** The [n] low bytes of [v], most significant first. *)
Fixpoint be_bytes (n : nat) (v : N) : bytes :=
  match n with
  | O => []
  | S k => be_bytes k (v / 256)%N ++ [(v mod 256)%N]
  end.

(** [bytes.hex()] *)
Definition hex (bs : bytes) : str :=
  flat_map (fun b => [hexchar (b / 16); hexchar (b mod 16)]) bs.

Section Sha256.

(** The compression of SHA-256, from the message to the 256-bit digest. *)
Variable sha256 : bytes -> N.

(** [hashlib.sha256(data).hexdigest()] *)
Definition sha256_hexdigest (data : bytes) : str :=
  hex (be_bytes 32 (sha256 data)).

End Sha256.

End Hashlib.

(* ====================================================================== *)
(** * utils/security.py, tokens and sanitisation *)
(* ====================================================================== *)

Module SecurityUtils.

Section Tokens.

Variable allocates : Z -> bool.

(** [generate_random_token(length)] *)
Definition generate_random_token (length : Z) (entropy : N)
  : Builtins.outcome str :=
  Secrets.token_urlsafe allocates length entropy.

(** The default [length=32]. *)
Definition generate_random_token_default (entropy : N)
  : Builtins.outcome str :=
  generate_random_token 32 entropy.

End Tokens.

Section Hashing.

Variable sha256 : bytes -> N.

(** [hash_token]: [hashlib.sha256(token.encode()).hexdigest()]. *)
Definition hash_token (token : str) : result str :=
  data <- utf8_encode token ;;
  Ret (Hashlib.sha256_hexdigest sha256 data).

End Hashing.

Section Sanitize.

(** [str.lower] and the whitespace table of [str.strip]. *)
Variable lower : str -> str.
Variable isspace : char -> bool.

(** [sanitize_email]: [email.lower().strip()]. *)
Definition sanitize_email (email : str) : str :=
  Builtins.strip isspace (lower email).

End Sanitize.

End SecurityUtils.

(* ====================================================================== *)
(** * services/token_service.py, the module-level helper *)
(* ====================================================================== *)

Module TokenHelpers.

Section Hashing.

Variable sha256 : bytes -> N.

(** [hash_token] of [token_service.py], a second copy of the one in
    [utils/security.py]. *)
Definition hash_token (token : str) : result str :=
  data <- utf8_encode token ;;
  Ret (Hashlib.sha256_hexdigest sha256 data).

End Hashing.

End TokenHelpers.

(* ====================================================================== *)
(** * config.py, the CORS origins *)
(* ====================================================================== *)

Module Settings.

(** The default of [CORS_ORIGINS]. *)
Definition CORS_ORIGINS_default : str :=
  pystr "http://localhost:3000,http://localhost:8080".

Section Origins.

Variable isspace : char -> bool.

(** [Settings.cors_origins_list]:
    [[origin.strip() for origin in self.CORS_ORIGINS.split(",")]]. *)
Definition cors_origins_list (CORS_ORIGINS : str) : list str :=
  map (Builtins.strip isspace) (Builtins.split Builtins.comma CORS_ORIGINS).

End Origins.

End Settings.

(* ====================================================================== *)
(** * schemas/auth.py, the other request bodies *)
(* ====================================================================== *)

Module RequestSchemas.

Inductive field :=
| fld_email
| fld_password
| fld_token
| fld_current_password
| fld_new_password
| fld_new_password_confirm.

(** A value of a JSON body: a string, or anything else (number, boolean,
    null, array, object). *)
Inductive json :=
| JStr (s : str)
| JOther.

(** What pydantic reports for a field: it is absent, it is not a string,
    or its string fails a check of the field. *)
Inductive error_kind :=
| missing
| string_type
| invalid (e : Schemas.error_type).

Definition errors (F : Type) := list (F * error_kind).

(** A required [str] field: presence, type, then the checks of the
    field. *)
Definition required_str {F A : Type} (f : F) (v : option json)
    (validate : str -> list (F * Schemas.error_type) + A) : errors F + A :=
  match v with
  | None => inl [(f, missing)]
  | Some JOther => inl [(f, string_type)]
  | Some (JStr s) =>
      match validate s with
      | inl es => inl (map (fun fe => (fst fe, invalid (snd fe))) es)
      | inr a => inr a
      end
  end.

Definition errors_of {F A : Type} (r : errors F + A) : errors F :=
  match r with inl es => es | inr _ => [] end.

(** A [str] field with [min_length=8, max_length=100]. *)
Definition check_length_8_100 (f : field) (v : str)
  : list (field * Schemas.error_type) + str :=
  if (length v <? 8)%nat then inl [(f, Schemas.string_too_short)]
  else if (100 <? length v)%nat then inl [(f, Schemas.string_too_long)]
  else inr v.

(** A [str] field with no constraint. *)
Definition unconstrained (v : str)
  : list (field * Schemas.error_type) + str := inr v.

Record LoginRequest := mkLoginRequest {
  lr_email : str;
  lr_password : str;
  remember_me : bool
}.

Record RefreshTokenRequest := mkRefreshTokenRequest {
  rtr_refresh_token : str
}.

Record Token := mkToken {
  access_token : str;
  token_type : str;
  expires_in : Z
}.

Record UserResponse := mkUserResponse {
  ur_id : UUID;
  ur_email : str;
  ur_is_active : bool;
  ur_is_verified : bool;
  ur_role : str;
  ur_created_at : datetime
}.

Record LoginResponse := mkLoginResponse {
  lresp_access_token : str;
  lresp_refresh_token : str;
  lresp_token_type : str;
  lresp_expires_in : Z;
  lresp_user : UserResponse
}.

Record PasswordResetConfirm := mkPasswordResetConfirm {
  token : str;
  new_password : str;
  new_password_confirm : str
}.

Record PasswordChange := mkPasswordChange {
  current_password : str;
  pc_new_password : str;
  pc_new_password_confirm : str
}.

(** The JSON object of a registration request. *)
Record RegisterBody := mkRegisterBody {
  b_email : option json;
  b_password : option json;
  b_password_confirm : option json
}.

Record PasswordResetConfirmBody := mkPasswordResetConfirmBody {
  b_token : option json;
  b_new_password : option json;
  b_new_password_confirm : option json
}.

Record PasswordChangeBody := mkPasswordChangeBody {
  b_current_password : option json;
  b_pc_new_password : option json;
  b_pc_new_password_confirm : option json
}.

Section Register.

Variable EmailStr : str -> option str.

(** [UserRegister] on a JSON object: the three fields are required
    strings; each one present as a string goes through its validator of
    [Schemas]; the errors of all fields are collected in field order. *)
Definition UserRegister_model_validate (body : RegisterBody)
  : errors Schemas.field_name + Schemas.UserRegister :=
  let e := required_str Schemas.f_email (b_email body)
             (Schemas.validate_email_field EmailStr) in
  let p := required_str Schemas.f_password (b_password body)
             Schemas.validate_password_field in
  let c := required_str Schemas.f_password_confirm (b_password_confirm body)
             Schemas.validate_password_confirm_field in
  match e, p, c with
  | inr e', inr p', inr c' =>
      inr {| Schemas.email := e'; Schemas.password := p';
             Schemas.password_confirm := c' |}
  | _, _, _ => inl (errors_of e ++ errors_of p ++ errors_of c)
  end.

End Register.

(** [PasswordResetConfirm]: three required strings, of which only
    [new_password] carries constraints. *)
Definition PasswordResetConfirm_validate (body : PasswordResetConfirmBody)
  : errors field + PasswordResetConfirm :=
  let t := required_str fld_token (b_token body) unconstrained in
  let p := required_str fld_new_password (b_new_password body)
             (check_length_8_100 fld_new_password) in
  let c := required_str fld_new_password_confirm
             (b_new_password_confirm body) unconstrained in
  match t, p, c with
  | inr t', inr p', inr c' =>
      inr {| token := t'; new_password := p'; new_password_confirm := c' |}
  | _, _, _ => inl (errors_of t ++ errors_of p ++ errors_of c)
  end.

(** [PasswordChange]: three required strings, of which only
    [new_password] carries constraints. *)
Definition PasswordChange_validate (body : PasswordChangeBody)
  : errors field + PasswordChange :=
  let o := required_str fld_current_password (b_current_password body)
             unconstrained in
  let p := required_str fld_new_password (b_pc_new_password body)
             (check_length_8_100 fld_new_password) in
  let c := required_str fld_new_password_confirm
             (b_pc_new_password_confirm body) unconstrained in
  match o, p, c with
  | inr o', inr p', inr c' =>
      inr {| current_password := o'; pc_new_password := p';
             pc_new_password_confirm := c' |}
  | _, _, _ => inl (errors_of o ++ errors_of p ++ errors_of c)
  end.

End RequestSchemas.

(* ====================================================================== *)
(** * database.py, the session dependency *)
(* ====================================================================== *)

Module GetDb.

(** The calls made on the session. *)
Inductive session_op := Commit | Rollback | Close.

(** A session, observed through the calls made on it. *)
Definition Session := list session_op.

Section Dependency.

(** What can be raised, and which of it derives from [Exception] (the
    rest derives from [BaseException] only, as a cancellation does). *)
Variable E : Type.
Variable is_Exception : E -> bool.

(** What the database answers to the three calls: an error or nothing. *)
Variables commit_error rollback_error close_error : option E.

Inductive ended (A : Type) : Type :=
| Done (a : A)
| Failed (e : E).
Arguments Done {A} a.
Arguments Failed {A} e.

Definition call (op : session_op) (error : option E) (s : Session)
  : option E * Session :=
  (error, s ++ [op]).

(** [get_db], run around the request that receives the session:
    [try: yield session; commit() / except Exception: rollback(); raise /
    finally: close()], inside [async with], which closes once more. *)
Definition get_db {A} (request : Session -> ended A * Session)
    (session : Session) : ended A * Session :=
  let (r, s1) := request session in
  let (r1, s2) :=
    match r with
    | Done a =>
        match call Commit commit_error s1 with
        | (None, s) => (Done a, s)
        | (Some e, s) => (Failed e, s)
        end
    | Failed e => (Failed e, s1)
    end in
  let (r2, s3) :=
    match r1 with
    | Failed e =>
        if is_Exception e
        then
          match call Rollback rollback_error s2 with
          | (None, s) => (Failed e, s)
          | (Some e', s) => (Failed e', s)
          end
        else (r1, s2)
    | Done _ => (r1, s2)
    end in
  let (r3, s4) :=
    match call Close close_error s3 with
    | (None, s) => (r2, s)
    | (Some e', s) => (Failed e', s)
    end in
  match call Close close_error s4 with
  | (None, s) => (r3, s)
  | (Some e', s) => (Failed e', s)
  end.

End Dependency.

Arguments Done {E A} a.
Arguments Failed {E A} e.
Arguments call {E} op error s.
Arguments get_db {E} is_Exception commit_error rollback_error close_error
  {A} request session.

End GetDb.

(* ====================================================================== *)
(** * utils/dependencies.py *)
(* ====================================================================== *)

Module Dependencies.

Definition not_implemented_detail : str :=
  pystr "Dependency pendiente de implementar".

(** [get_current_user]: the decoding is commented out; the body ends in
    [raise HTTPException(501)]. *)
Definition get_current_user (token : str) (db : Database.AsyncSession)
  : Builtins.outcome Models.User :=
  Builtins.Raises
    (Builtins.HTTPException Builtins.HTTP_501_NOT_IMPLEMENTED
       not_implemented_detail).

(** [get_current_user_optional]: no token (or an empty one) gives [None];
    an [HTTPException] of [get_current_user] is turned into [None]. *)
Definition get_current_user_optional (token : option str)
    (db : Database.AsyncSession) : Builtins.outcome (option Models.User) :=
  match token with
  | None => Builtins.Returns None
  | Some [] => Builtins.Returns None
  | Some t =>
      match get_current_user t db with
      | Builtins.Returns u => Builtins.Returns (Some u)
      | Builtins.Raises (Builtins.HTTPException _ _) => Builtins.Returns None
      | Builtins.Raises r => Builtins.Raises r
      end
  end.

(** [get_current_active_user]: the check of [is_active] is commented out. *)
Definition get_current_active_user (current_user : Models.User)
  : Builtins.outcome Models.User := Builtins.Returns current_user.

(** [get_current_verified_user]: the check of [is_verified] is commented
    out. *)
Definition get_current_verified_user (current_user : Models.User)
  : Builtins.outcome Models.User := Builtins.Returns current_user.

(** [require_role(required_role)] returns [role_checker], whose comparison
    of roles is commented out. *)
Definition require_role (required_role : str) (current_user : Models.User)
  : Builtins.outcome Models.User := Builtins.Returns current_user.

(** [require_roles(allowed_roles)] returns [roles_checker]. *)
Definition require_roles (allowed_roles : list str)
    (current_user : Models.User) : Builtins.outcome Models.User :=
  Builtins.Returns current_user.

(** [require_admin = require_role("admin")] *)
Definition require_admin : Models.User -> Builtins.outcome Models.User :=
  require_role (pystr "admin").

Definition then_ {A B} (m : Builtins.outcome A)
    (k : A -> Builtins.outcome B) : Builtins.outcome B :=
  match m with
  | Builtins.Returns a => k a
  | Builtins.Raises r => Builtins.Raises r
  end.

(** How the [Depends] chains resolve for a request. [bearer] is what
    [oauth2_scheme] (FastAPI's [OAuth2PasswordBearer] with
    [auto_error=True]) makes of the request: the token of the
    [Authorization] header, or its own [HTTPException] when there is none.
    [get_current_user] depends on it, [get_current_active_user] on
    [get_current_user], and [get_current_verified_user], [role_checker]
    and [roles_checker] on [get_current_active_user]. *)
Definition resolve_user (bearer : Builtins.outcome str)
    (db : Database.AsyncSession) : Builtins.outcome Models.User :=
  then_ bearer (fun token => get_current_user token db).

Definition resolve_active (bearer : Builtins.outcome str)
    (db : Database.AsyncSession) : Builtins.outcome Models.User :=
  then_ (resolve_user bearer db) get_current_active_user.

Definition resolve_verified (bearer : Builtins.outcome str)
    (db : Database.AsyncSession) : Builtins.outcome Models.User :=
  then_ (resolve_active bearer db) get_current_verified_user.

Definition resolve_role (required_role : str)
    (bearer : Builtins.outcome str) (db : Database.AsyncSession)
  : Builtins.outcome Models.User :=
  then_ (resolve_active bearer db) (require_role required_role).

Definition resolve_roles (allowed_roles : list str)
    (bearer : Builtins.outcome str) (db : Database.AsyncSession)
  : Builtins.outcome Models.User :=
  then_ (resolve_active bearer db) (require_roles allowed_roles).

End Dependencies.

(* ====================================================================== *)
(** * routers/auth_router.py, the other endpoints *)
(* ====================================================================== *)

Module Endpoints.

Definition pending_detail : str := pystr "Endpoint pendiente de implementar".

Definition pending {A} : Builtins.outcome A :=
  Builtins.Raises
    (Builtins.HTTPException Builtins.HTTP_501_NOT_IMPLEMENTED pending_detail).

(** [POST /register] *)
Definition register (user_data : Schemas.UserRegister)
    (db : Database.AsyncSession)
  : Builtins.outcome RequestSchemas.UserResponse := pending.

(** [POST /login] *)
Definition login (credentials : RequestSchemas.LoginRequest)
    (db : Database.AsyncSession)
  : Builtins.outcome RequestSchemas.LoginResponse := pending.

(** [POST /logout] *)
Definition logout (refresh_token : RequestSchemas.RefreshTokenRequest)
    (db : Database.AsyncSession)
  : Builtins.outcome Schemas.MessageResponse := pending.

(** [POST /refresh] *)
Definition refresh_token
    (token_request : RequestSchemas.RefreshTokenRequest)
    (db : Database.AsyncSession)
  : Builtins.outcome RequestSchemas.Token := pending.

(** [POST /password/reset/confirm] *)
Definition confirm_password_reset
    (reset_data : RequestSchemas.PasswordResetConfirm)
    (db : Database.AsyncSession)
  : Builtins.outcome Schemas.MessageResponse := pending.

(** [POST /password/change] *)
Definition change_password (password_data : RequestSchemas.PasswordChange)
    (db : Database.AsyncSession)
  : Builtins.outcome Schemas.MessageResponse := pending.

(** [HTTPException], [ValueError] and the errors of the hashing path all
    derive from [Exception]. *)
Definition is_Exception (r : Builtins.raised) : bool := true.

(** A handler run inside [get_db]: it makes no call on the session; its
    [HTTPException] derives from [Exception]. *)
Definition as_request {A} (r : Builtins.outcome A) (s : GetDb.Session)
  : GetDb.ended Builtins.raised A * GetDb.Session :=
  match r with
  | Builtins.Returns a => (GetDb.Done a, s)
  | Builtins.Raises e => (GetDb.Failed e, s)
  end.

Definition as_request_py {A} (r : result A) (s : GetDb.Session)
  : GetDb.ended Builtins.raised A * GetDb.Session :=
  match r with
  | Ret a => (GetDb.Done a, s)
  | Raise e => (GetDb.Failed (Builtins.Error e), s)
  end.

End Endpoints.

(* ====================================================================== *)
(** * services/auth_service.py, the handlers in sequence *)
(* ====================================================================== *)

Module LoginAttempts.

(** The outcome of checking a password during a login. *)
Inductive attempt := WrongPassword | CorrectPassword.

(** What [login] does with the account after the password check:
    [_handle_failed_login] or [_handle_successful_login]. *)
Definition after_attempt (st : AuthService.AuthService * Models.User)
    (a : attempt) : AuthService.AuthService * Models.User :=
  match a with
  | WrongPassword => snd (AuthService._handle_failed_login (fst st) (snd st))
  | CorrectPassword =>
      snd (AuthService._handle_successful_login (fst st) (snd st))
  end.

Definition after_attempts (self : AuthService.AuthService)
    (user : Models.User) (attempts : list attempt)
  : AuthService.AuthService * Models.User :=
  fold_left after_attempt attempts (self, user).

End LoginAttempts.

(* ====================================================================== *)
(** * Vocabulary of the further properties *)
(* ====================================================================== *)

Module Props.

(** Neither the first nor the last character is of the class. *)
Definition trimmed (f : char -> bool) (s : str) : Prop :=
  match s with
  | [] => True
  | c :: _ => f c = false /\ f (last s c) = false
  end.


Definition is_byte (b : N) : Prop := (b < 256)%N.

(** A code point that UTF-8 can encode. *)
Definition encodable (c : char) : Prop := utf8_encode_char c <> None.

(** ASCII instances of the tables of [str.lower] and [str.strip]. *)
Definition ascii_lower (s : str) : str :=
  map (fun c => if (65 <=? c)%N && (c <=? 90)%N then (c + 32)%N else c) s.

Definition ascii_isspace (c : char) : bool :=
  ((9 <=? c)%N && (c <=? 13)%N) || ((28 <=? c)%N && (c <=? 32)%N).

(** A system with memory for requests of up to a mebibyte. *)
Definition a_mebibyte (n : Z) : bool := (n <=? 1048576)%Z.



End Props.

(* ====================================================================== *)
(** * Refresh token validity *)
(* ====================================================================== *)

Lemma is_valid_revoked (now : datetime) (t : Models.RefreshToken) :
  Models.revoked t = true -> Models.is_valid now t = false.
Proof.
  intros H. unfold Models.is_valid. now rewrite H.
Qed.

(** C1, as amended: [RefreshToken.is_valid] holds exactly when the token is
    not revoked and the clock has not passed [expires_at]; the comparison
    is not strict, so the expiry instant itself still counts as valid. *)
Theorem is_valid_iff_not_revoked_and_not_past_expiry :
  forall (now : datetime) (t : Models.RefreshToken),
    Models.is_valid now t = true
    <-> (Models.revoked t = false /\ (now <= Models.expires_at t)%Z).
Proof.
  intros now t. unfold Models.is_valid.
  destruct (Models.revoked t) eqn:Hrev.
  - split; [discriminate | intros [H _]; discriminate].
  - destruct (Z.gtb_spec now (Models.expires_at t)) as [Hgt | Hle].
    + split; [discriminate | intros [_ H]; lia].
    + split; [intros _; split; [reflexivity | lia] | reflexivity].
Qed.

(** Away from the expiry instant the code and the data model's
    [revoked == false] and [now < expires_at] agree. *)
Lemma is_valid_agrees_off_boundary (now : datetime) (t : Models.RefreshToken) :
  now <> Models.expires_at t ->
  Models.is_valid now t
  = Spec.token_valid (Models.revoked t) (Models.expires_at t) now.
Proof.
  intros Hne. unfold Models.is_valid, Spec.token_valid.
  destruct (Models.revoked t); cbn [negb andb]; [reflexivity |].
  destruct (Z.gtb_spec now (Models.expires_at t));
    destruct (Z.ltb_spec now (Models.expires_at t)); try reflexivity; lia.
Qed.

(** C1, the boundary: at the very instant of expiry the code reports the
    token valid, where the data model's strict [now < expires_at] does
    not. *)
Lemma is_valid_at_expiry_instant :
  Models.is_valid 1000%Z Examples.token_1000 = true
  /\ Models.revoked Examples.token_1000 = false
  /\ (1000 <? Models.expires_at Examples.token_1000)%Z = false
  /\ Spec.token_valid (Models.revoked Examples.token_1000)
       (Models.expires_at Examples.token_1000) 1000%Z = false.
Proof.
  repeat split.
Qed.

(* ====================================================================== *)
(** * Lockout policy *)
(* ====================================================================== *)

Lemma is_user_locked_constant (self : AuthService.AuthService)
    (user : Models.User) :
  AuthService._is_user_locked self user = false.
Proof. reflexivity. Qed.

(** C3: the lock check answers [False] for every account, also for one
    whose [locked_until] lies in the future, where the policy's [isLocked]
    answers true. *)
Theorem is_user_locked_misses_active_lock :
  (forall self user, AuthService._is_user_locked self user = false)
  /\ Models.locked_until Examples.locked_user = Some 2000%Z
  /\ Spec.isLocked (Spec.lockout_of Examples.locked_user) 1500%Z = true
  /\ AuthService._is_user_locked (AuthService.init Examples.empty_db)
       Examples.locked_user = false.
Proof.
  repeat split.
Qed.

Lemma handle_failed_login_unchanged (self : AuthService.AuthService)
    (user : Models.User) :
  snd (AuthService._handle_failed_login self user) = (self, user).
Proof. reflexivity. Qed.

(** C5: the failed-login handler leaves the account as it was: the counter
    is not incremented and no lock is set, also when the policy's
    [onFailure] takes the fifth failure to a lock. *)
Theorem handle_failed_login_does_not_count :
  (forall self user,
      Models.failed_login_attempts
        (snd (snd (AuthService._handle_failed_login self user)))
      = Models.failed_login_attempts user
      /\ Models.locked_until
           (snd (snd (AuthService._handle_failed_login self user)))
         = Models.locked_until user)
  /\ Spec.onFailure (Spec.lockout_of Examples.fresh_user)
       (Config.MAX_LOGIN_ATTEMPTS Config.settings)
       (timedelta_minutes (Config.LOGIN_LOCKOUT_MINUTES Config.settings)) 1500%Z
     = {| Spec.failedAttempts := 5%Z;
          Spec.lockedUntil := Some 900001500%Z |}
  /\ Spec.lockout_of
       (snd (snd (AuthService._handle_failed_login
                    (AuthService.init Examples.empty_db) Examples.fresh_user)))
     = {| Spec.failedAttempts := 4%Z; Spec.lockedUntil := None |}.
Proof.
  repeat split.
Qed.

(* ====================================================================== *)
(** * Access tokens *)
(* ====================================================================== *)

Lemma create_access_token_raises (self : TokenService.TokenService)
    (user : Models.User) (extra : option TokenService.claims) :
  TokenService.create_access_token self user extra = Raise NotImplementedError.
Proof. reflexivity. Qed.

Lemma decode_access_token_raises (self : TokenService.TokenService)
    (token : str) :
  TokenService.decode_access_token self token = Raise NotImplementedError.
Proof. reflexivity. Qed.

(** C8: minting an access token raises [NotImplementedError] for every
    account, and so does decoding any string; the round trip therefore
    never returns claims, before or after the expiry. *)
Theorem access_token_round_trip_not_implemented :
  forall (self : TokenService.TokenService) (user : Models.User)
         (extra : option TokenService.claims),
    TokenService.create_access_token self user extra
      = Raise NotImplementedError
    /\ (forall token, TokenService.decode_access_token self token
                      = Raise NotImplementedError)
    /\ (token <- TokenService.create_access_token self user extra ;;
        TokenService.decode_access_token self token)
       = Raise NotImplementedError
    /\ (forall claims : Schemas.TokenData,
           (token <- TokenService.create_access_token self user extra ;;
            TokenService.decode_access_token self token)
           <> Ret (Some claims)).
Proof.
  intros self user extra. repeat split. intros claims H. discriminate H.
Qed.

(* ====================================================================== *)
(** * Password reset request *)
(* ====================================================================== *)

(** C6: the reset endpoint answers with the same generic success message
    for every address and every content of the store, in particular for a
    store that holds the account and one that does not; it never raises and
    leaves the store as it was. The service method behind it returns [None]
    in both cases as well. *)
Theorem request_password_reset_same_answer :
  forall (request_data : Schemas.PasswordResetRequest)
         (db1 db2 : Database.AsyncSession),
    fst (Router.request_password_reset request_data db1)
      = Ret {| Schemas.message := Router.reset_message;
               Schemas.success := true |}
    /\ fst (Router.request_password_reset request_data db1)
       = fst (Router.request_password_reset request_data db2)
    /\ snd (Router.request_password_reset request_data db1) = db1
    /\ fst (AuthService.request_password_reset (AuthService.init db1)
              (Schemas.prr_email request_data))
       = fst (AuthService.request_password_reset (AuthService.init db2)
                (Schemas.prr_email request_data))
    /\ fst (AuthService.request_password_reset (AuthService.init db1)
              (Schemas.prr_email request_data)) = Ret tt.
Proof.
  intros request_data db1 db2. repeat split.
Qed.

(** The two stores of the examples differ exactly in whether the account
    exists. *)
Lemma example_stores_differ_in_existence :
  Database.account_exists Examples.db_with_account (pystr "a@x.com") = true
  /\ Database.account_exists Examples.empty_db (pystr "a@x.com") = false.
Proof.
  split; reflexivity.
Qed.

(* ====================================================================== *)
(** * Registration schema *)
(* ====================================================================== *)

Section RegistrationSchema.

Variable EmailStr : str -> option str.

Lemma validate_password_field_in_range (v : str) :
  (8 <= length v <= 100)%nat ->
  Schemas.validate_password_field v = inr v.
Proof.
  intros [Hlo Hhi]. unfold Schemas.validate_password_field.
  destruct (Nat.ltb_spec (length v) 8) as [H | _]; [lia |].
  destruct (Nat.ltb_spec 100 (length v)) as [H | _]; [lia |].
  reflexivity.
Qed.

(** C10: with an address that [EmailStr] accepts and a password of 8 to
    100 characters, [UserRegister] validation succeeds and keeps the
    password as given, whatever the confirmation and whatever the kinds of
    characters in the password; the field validator returns every value
    unchanged. *)
Theorem UserRegister_accepts_without_match_or_strength :
  forall (input : Schemas.RegisterInput) (normalised : str),
    EmailStr (Schemas.in_email input) = Some normalised ->
    (8 <= length (Schemas.in_password input) <= 100)%nat ->
    Schemas.UserRegister_validate EmailStr input
      = inr {| Schemas.email := normalised;
               Schemas.password := Schemas.in_password input;
               Schemas.password_confirm := Schemas.in_password_confirm input |}
    /\ (forall v, Schemas.validate_password_strength v = Ret v).
Proof.
  intros input normalised Hmail Hlen. split; [| reflexivity].
  unfold Schemas.UserRegister_validate, Schemas.validate_email_field.
  rewrite Hmail, (validate_password_field_in_range _ Hlen).
  reflexivity.
Qed.

End RegistrationSchema.

(** C10 at a registration whose password is all lower case and whose
    confirmation differs. *)
Lemma UserRegister_accepts_weak_mismatched :
  Schemas.in_password Examples.weak_registration
    <> Schemas.in_password_confirm Examples.weak_registration
  /\ existsb Examples.ascii_isupper
       (Schemas.in_password Examples.weak_registration) = false
  /\ existsb Examples.ascii_isdigit
       (Schemas.in_password Examples.weak_registration) = false
  /\ Schemas.UserRegister_validate Examples.example_EmailStr
       Examples.weak_registration
     = inr {| Schemas.email := pystr "a@x.com";
              Schemas.password := pystr "password";
              Schemas.password_confirm := pystr "different" |}.
Proof.
  split; [discriminate |].
  split; [reflexivity |].
  split; [reflexivity |].
  apply (@UserRegister_accepts_without_match_or_strength
           Examples.example_EmailStr Examples.weak_registration
           (pystr "a@x.com")).
  - reflexivity.
  - vm_compute. lia.
Defined.

(* ====================================================================== *)
(** * Password strength *)
(* ====================================================================== *)

Section PasswordStrength.

Variables isupper islower isdigit : char -> bool.

Lemma contains_existsb (class : char -> bool) (p : str) :
  Spec.contains class p <-> existsb class p = true.
Proof.
  unfold Spec.contains. rewrite existsb_exists. reflexivity.
Qed.

Lemma not_contains_existsb (class : char -> bool) (p : str) :
  ~ Spec.contains class p <-> existsb class p = false.
Proof.
  rewrite contains_existsb. destruct (existsb class p).
  - split; [intros H; exfalso; now apply H | discriminate].
  - split; [reflexivity | intros _ H; discriminate].
Qed.

Lemma violated_iff_not_satisfies (r : Spec.rule) (p : str) :
  Spec.violated isupper islower isdigit r p = true
  <-> ~ Spec.satisfies isupper islower isdigit r p.
Proof.
  destruct r; cbn [Spec.violated Spec.satisfies];
    try (rewrite not_contains_existsb, negb_true_iff; reflexivity).
  rewrite Nat.ltb_lt. lia.
Qed.

Ltac split_rules p :=
  destruct (Nat.ltb_spec (length p) 8);
  destruct (existsb isupper p) eqn:?;
  destruct (existsb islower p) eqn:?;
  destruct (existsb isdigit p) eqn:?;
  cbn [negb app length Nat.eqb fst snd map filter Spec.rule_message].

(** The errors are the messages of the violated rules, in rule order. *)
Lemma validate_password_strength_errors (p : str) :
  snd (Security.validate_password_strength isupper islower isdigit p)
  = map Spec.rule_message
      (filter (fun r => Spec.violated isupper islower isdigit r p) Spec.rules).
Proof.
  unfold Security.validate_password_strength, Security.append_if, Spec.rules.
  cbn [filter Spec.violated].
  split_rules p; reflexivity.
Qed.

Lemma validate_password_strength_flag (p : str) :
  fst (Security.validate_password_strength isupper islower isdigit p) = true
  <-> snd (Security.validate_password_strength isupper islower isdigit p) = [].
Proof.
  unfold Security.validate_password_strength. cbn [fst snd].
  destruct (Security.append_if _ _ _) as [| m ms]; cbn [length Nat.eqb].
  - split; reflexivity.
  - split; discriminate.
Qed.

Lemma strong_iff_no_rule_violated (p : str) :
  Spec.strong isupper islower isdigit p
  <-> filter (fun r => Spec.violated isupper islower isdigit r p) Spec.rules = [].
Proof.
  unfold Spec.strong, Spec.rules. rewrite !contains_existsb.
  cbn [filter Spec.violated].
  split_rules p; split; intros Hs;
    try discriminate; try reflexivity;
    try (destruct Hs as (? & ? & ? & ?); first [lia | discriminate]).
  repeat split; [lia].
Qed.

(** C9: [validate_password_strength p] is [(True, [])] exactly when [p] has
    at least 8 characters, an upper-case one, a lower-case one and a digit;
    otherwise the flag is [False] and the list holds one message for each
    violated rule; the flag is [True] iff the list is empty. *)
Theorem validate_password_strength_sound_and_complete :
  forall p : str,
    (Security.validate_password_strength isupper islower isdigit p = (true, [])
     <-> Spec.strong isupper islower isdigit p)
    /\ (~ Spec.strong isupper islower isdigit p ->
        fst (Security.validate_password_strength isupper islower isdigit p)
        = false)
    /\ snd (Security.validate_password_strength isupper islower isdigit p)
       = map Spec.rule_message
           (filter (fun rl => Spec.violated isupper islower isdigit rl p)
              Spec.rules)
    /\ length (snd (Security.validate_password_strength isupper islower isdigit p))
       = length (filter (fun rl => Spec.violated isupper islower isdigit rl p)
                   Spec.rules)
    /\ (fst (Security.validate_password_strength isupper islower isdigit p) = true
        <-> snd (Security.validate_password_strength isupper islower isdigit p)
            = []).
Proof.
  intros p.
  pose proof (validate_password_strength_errors p) as Herr.
  pose proof (validate_password_strength_flag p) as Hflag.
  pose proof (strong_iff_no_rule_violated p) as Hstrong.
  set (r := Security.validate_password_strength isupper islower isdigit p) in *.
  assert (Hempty : snd r = [] <-> Spec.strong isupper islower isdigit p).
  { rewrite Hstrong, Herr. split; intros H.
    - destruct (filter _ Spec.rules); [reflexivity | discriminate].
    - now rewrite H. }
  split; [| split; [| split; [exact Herr | split; [| exact Hflag]]]].
  - rewrite <- Hempty. split; intros H.
    + now rewrite H.
    + destruct r as [b es]. cbn [fst snd] in *. subst es.
      rewrite H. f_equal. now apply Hflag.
  - intros Hns. destruct (fst r) eqn:Hb; [| reflexivity].
    exfalso. apply Hns, Hempty, Hflag. reflexivity.
  - rewrite Herr. apply length_map.
Qed.

End PasswordStrength.

(* ====================================================================== *)
(** * Strings and the bcrypt alphabet *)
(* ====================================================================== *)

Lemma str_eqb_eq (a b : str) : str_eqb a b = true <-> a = b.
Proof.
  revert b. induction a as [| x a IH]; intros [| y b]; cbn [str_eqb].
  - split; reflexivity.
  - split; discriminate.
  - split; discriminate.
  - rewrite andb_true_iff, N.eqb_eq, IH. split.
    + intros [-> ->]. reflexivity.
    + intros H. injection H as -> ->. split; reflexivity.
Qed.

Lemma str_eqb_refl (a : str) : str_eqb a a = true.
Proof. now apply str_eqb_eq. Qed.

Lemma str_eqb_neq (a b : str) : str_eqb a b = false <-> a <> b.
Proof.
  rewrite <- str_eqb_eq. destruct (str_eqb a b).
  - split; [discriminate | intros H; exfalso; now apply H].
  - split; [intros _ H; discriminate | reflexivity].
Qed.

Lemma firstn_length_app {A} (p s : list A) : firstn (length p) (p ++ s) = p.
Proof.
  induction p as [| x p IH]; cbn; [reflexivity | now rewrite IH].
Qed.

Lemma skipn_length_app {A} (p s : list A) : skipn (length p) (p ++ s) = s.
Proof.
  induction p as [| x p IH]; cbn; [reflexivity | exact IH].
Qed.

Lemma startswith_app (p s : str) : startswith p (p ++ s) = true.
Proof.
  unfold startswith. rewrite firstn_length_app. apply str_eqb_refl.
Qed.

Lemma startswith_split (p s : str) :
  startswith p s = true -> s = p ++ skipn (length p) s.
Proof.
  unfold startswith. rewrite str_eqb_eq. intros H.
  rewrite <- H at 1. symmetry. apply firstn_skipn.
Qed.

Lemma charmap_length : length Passlib.bcrypt64_charmap = 64%nat.
Proof. vm_compute. reflexivity. Qed.

Lemma in_charmap_In (c : char) :
  Passlib.in_charmap c = true <-> In c Passlib.bcrypt64_charmap.
Proof.
  unfold Passlib.in_charmap. rewrite existsb_exists. split.
  - intros (x & Hin & Heq). apply N.eqb_eq in Heq. now subst.
  - intros Hin. exists c. split; [exact Hin | apply N.eqb_refl].
Qed.

Lemma forallb_in_charmap (s : str) :
  forallb Passlib.in_charmap s = true
  <-> Forall (fun c => In c Passlib.bcrypt64_charmap) s.
Proof.
  rewrite forallb_forall, Forall_forall. split; intros H c Hc.
  - now apply in_charmap_In, H.
  - now apply in_charmap_In, H.
Qed.

Lemma b64char_in_charmap (i : N) : In (Passlib.b64char i) Passlib.bcrypt64_charmap.
Proof.
  unfold Passlib.b64char. apply nth_In. rewrite charmap_length.
  assert (i mod 64 < 64)%N by (apply N.mod_lt; discriminate). lia.
Qed.

Lemma dollar_not_in_charmap : ~ In Passlib.dollar Passlib.bcrypt64_charmap.
Proof.
  rewrite <- in_charmap_In. vm_compute. discriminate.
Qed.

Lemma no_dollar_in_charmap_string (s : str) :
  Forall (fun c => In c Passlib.bcrypt64_charmap) s ->
  existsb (N.eqb Passlib.dollar) s = false.
Proof.
  intros H. destruct (existsb (N.eqb Passlib.dollar) s) eqn:E; [| reflexivity].
  apply existsb_exists in E. destruct E as (c & Hin & Heq).
  apply N.eqb_eq in Heq. subst c.
  rewrite Forall_forall in H. exfalso. apply dollar_not_in_charmap, H, Hin.
Qed.

Lemma digits64_length (count : nat) (value : N) :
  length (Passlib.digits64 count value) = count.
Proof.
  revert value. induction count as [| n IH]; intros value; cbn;
    [reflexivity | now rewrite IH].
Qed.

Lemma map_b64char_charmap (l : list N) :
  Forall (fun c => In c Passlib.bcrypt64_charmap) (map Passlib.b64char l).
Proof.
  apply Forall_forall. intros c Hc. apply in_map_iff in Hc.
  destruct Hc as (i & <- & _). apply b64char_in_charmap.
Qed.

(** ** The salt *)

Lemma repair_unused_length (s : str) :
  length (Passlib.repair_unused s) = length s.
Proof.
  destruct s as [| c s]; [reflexivity |].
  unfold Passlib.repair_unused.
  rewrite length_app, removelast_firstn_len, length_firstn. cbn [length]. lia.
Qed.

Lemma removelast_Forall {A} (P : A -> Prop) (l : list A) :
  Forall P l -> Forall P (removelast l).
Proof.
  induction 1 as [| x l Hx Hl IH]; [constructor |].
  cbn [removelast]. destruct l; [constructor |].
  constructor; assumption.
Qed.

Lemma repair_unused_charmap (s : str) :
  Forall (fun c => In c Passlib.bcrypt64_charmap) s ->
  Forall (fun c => In c Passlib.bcrypt64_charmap) (Passlib.repair_unused s).
Proof.
  intros H. destruct s as [| c s]; [constructor |].
  unfold Passlib.repair_unused. apply Forall_app. split.
  - now apply removelast_Forall.
  - constructor; [apply b64char_in_charmap | constructor].
Qed.

Lemma generate_salt_length (rng : Passlib.Rng) :
  length (fst (Passlib.generate_salt rng)) = 22%nat.
Proof.
  unfold Passlib.generate_salt, Passlib.getrandstr, Passlib.randrange.
  cbn [fst]. rewrite repair_unused_length, length_map, digits64_length.
  reflexivity.
Qed.

Lemma generate_salt_charmap (rng : Passlib.Rng) :
  Forall (fun c => In c Passlib.bcrypt64_charmap)
    (fst (Passlib.generate_salt rng)).
Proof.
  unfold Passlib.generate_salt, Passlib.getrandstr, Passlib.randrange.
  cbn [fst]. apply repair_unused_charmap, map_b64char_charmap.
Qed.

(** [generate_salt] takes one draw. *)
Lemma generate_salt_advances (rng : Passlib.Rng) :
  snd (Passlib.generate_salt rng)
  = {| Passlib.draws := Passlib.draws rng; Passlib.pos := S (Passlib.pos rng) |}.
Proof. reflexivity. Qed.

(** ** The checksum *)

Lemma encode_checksum_length (raw : N) :
  length (Passlib.encode_checksum raw) = 31%nat.
Proof.
  unfold Passlib.encode_checksum.
  now rewrite length_map, length_rev, digits64_length.
Qed.

Lemma encode_checksum_charmap (raw : N) :
  Forall (fun c => In c Passlib.bcrypt64_charmap) (Passlib.encode_checksum raw).
Proof.
  apply map_b64char_charmap.
Qed.

(* ====================================================================== *)
(** * Parsing a digest *)
(* ====================================================================== *)

Lemma parse_ident_sound (d i tail : str) :
  Passlib.parse_ident d = Some (i, tail) ->
  In i Passlib.ident_values /\ d = i ++ tail.
Proof.
  unfold Passlib.parse_ident.
  destruct (find _ Passlib.ident_values) as [j |] eqn:Hfind; [| discriminate].
  intros H. injection H as <- <-.
  apply find_some in Hfind. destruct Hfind as [Hin Hsw].
  split; [exact Hin | now apply startswith_split].
Qed.

Lemma parse_ident_complete (i rest : str) :
  In i [Passlib.IDENT_2; Passlib.IDENT_2A; Passlib.IDENT_2Y; Passlib.IDENT_2B] ->
  Passlib.parse_ident (i ++ rest) = Some (i, rest)
  /\ str_eqb i Passlib.IDENT_2X = false
  /\ Passlib.identify (i ++ rest) = true.
Proof.
  intros [<- | [<- | [<- | [<- | []]]]]; repeat split.
Qed.

Lemma split_dollar_sound (s a b : str) :
  Passlib.split_dollar s = Some (a, b) -> s = a ++ [Passlib.dollar] ++ b.
Proof.
  revert a. induction s as [| c s IH]; intros a; cbn [Passlib.split_dollar];
    [discriminate |].
  destruct (N.eqb_spec c Passlib.dollar) as [-> | Hne].
  - destruct (existsb (N.eqb Passlib.dollar) s); [discriminate |].
    intros H. injection H as <- <-. reflexivity.
  - destruct (Passlib.split_dollar s) as [[a' b'] |]; [| discriminate].
    intros H. injection H as <- <-. cbn [app]. f_equal. now apply IH.
Qed.

Lemma split_dollar_complete (a b : str) :
  existsb (N.eqb Passlib.dollar) a = false ->
  existsb (N.eqb Passlib.dollar) b = false ->
  Passlib.split_dollar (a ++ [Passlib.dollar] ++ b) = Some (a, b).
Proof.
  intros Ha Hb. induction a as [| c a IH]; cbn [app Passlib.split_dollar].
  - rewrite N.eqb_refl, Hb. reflexivity.
  - cbn [existsb] in Ha. apply orb_false_iff in Ha. destruct Ha as [Hc Ha].
    rewrite N.eqb_sym, Hc. cbn [app] in IH. now rewrite (IH Ha).
Qed.

Lemma two_digits_no_dollar (r : N) :
  existsb (N.eqb Passlib.dollar) (Passlib.two_digits r) = false.
Proof.
  unfold Passlib.two_digits, Passlib.dollar. cbn [existsb].
  rewrite !orb_false_iff. repeat split; apply N.eqb_neq.
  - generalize (r / 10)%N. intros q. lia.
  - generalize (r mod 10)%N. intros q. lia.
Qed.

Lemma parse_rounds_sound (rs : str) (r : N) :
  Passlib.parse_rounds rs = Some r ->
  rs = Passlib.two_digits r /\ (4 <= r <= 31)%N.
Proof.
  destruct rs as [| a [| b [| c rs]]]; cbn [Passlib.parse_rounds];
    try discriminate.
  unfold Passlib.is_ascii_digit.
  destruct (N.leb_spec 48 a); cbn [andb]; [| discriminate].
  destruct (N.leb_spec a 57); cbn [andb]; [| discriminate].
  destruct (N.leb_spec 48 b); cbn [andb]; [| discriminate].
  destruct (N.leb_spec b 57); cbn [andb]; [| discriminate].
  destruct (N.leb_spec 4 ((a - 48) * 10 + (b - 48))); cbn [andb];
    [| discriminate].
  destruct (N.leb_spec ((a - 48) * 10 + (b - 48)) 31); [| discriminate].
  intros Hr. injection Hr as <-. split; [| lia].
  unfold Passlib.two_digits.
  assert (Hq : (((a - 48) * 10 + (b - 48)) / 10 = a - 48)%N).
  { symmetry. apply N.div_unique with (r := (b - 48)%N); lia. }
  assert (Hm : (((a - 48) * 10 + (b - 48)) mod 10 = b - 48)%N).
  { symmetry. apply N.mod_unique with (q := (a - 48)%N); lia. }
  rewrite Hq, Hm. f_equal; [lia | f_equal; lia].
Qed.

Lemma parse_rounds_complete (r : N) :
  (4 <= r <= 31)%N -> Passlib.parse_rounds (Passlib.two_digits r) = Some r.
Proof.
  intros Hr. unfold Passlib.two_digits, Passlib.parse_rounds,
    Passlib.is_ascii_digit.
  assert (Hm : (r mod 10 < 10)%N) by (apply N.mod_lt; discriminate).
  assert (Hd : (r = 10 * (r / 10) + r mod 10)%N) by (apply N.div_mod; discriminate).
  remember (r / 10)%N as q eqn:Eq. remember (r mod 10)%N as m eqn:Em.
  clear Eq Em.
  replace (48 + q - 48)%N with q by lia.
  replace (48 + m - 48)%N with m by lia.
  replace (q * 10 + m)%N with r by lia.
  destruct (N.leb_spec 48 (48 + q)); [| lia].
  destruct (N.leb_spec (48 + q) 57); [| lia].
  destruct (N.leb_spec 48 (48 + m)); [| lia].
  destruct (N.leb_spec (48 + m) 57); [| lia].
  destruct (N.leb_spec 4 r); [| lia].
  destruct (N.leb_spec r 31); [| lia].
  reflexivity.
Qed.

(** What [from_string] accepts with a checksum is a well-formed digest. *)
Lemma from_string_sound (d : str) (h : Passlib.bcrypt) (chk : str) :
  Passlib.from_string d = Ret h ->
  Passlib.checksum h = Some chk ->
  Spec.is_bcrypt_digest d.
Proof.
  unfold Passlib.from_string.
  destruct (Passlib.parse_ident d) as [[i tail] |] eqn:Hid; [| discriminate].
  destruct (str_eqb i Passlib.IDENT_2X) eqn:H2x; [discriminate |].
  destruct (Passlib.split_dollar tail) as [[rs data] |] eqn:Hsplit;
    [| discriminate].
  destruct (Passlib.parse_rounds rs) as [r |] eqn:Hr; [| discriminate].
  cbv zeta.
  destruct (Nat.eqb_spec (length (firstn 22 data)) 22) as [Hls | _];
    cbn [negb orb]; [| discriminate].
  destruct (forallb Passlib.in_charmap (firstn 22 data)) eqn:Hcs;
    cbn [negb]; [| discriminate].
  destruct (skipn 22 data) as [| c0 cs] eqn:Hskip.
  { intros H. injection H as <-. discriminate. }
  destruct (Nat.eqb_spec (length (c0 :: cs)) 31) as [Hlc | _];
    cbn [negb orb]; [| discriminate].
  destruct (forallb Passlib.in_charmap (c0 :: cs)) eqn:Hcc;
    cbn [negb]; [| discriminate].
  intros H. injection H as <-. cbn [Passlib.checksum].
  intros Hchk. injection Hchk as <-.
  apply parse_ident_sound in Hid. destruct Hid as [Hin ->].
  apply split_dollar_sound in Hsplit. subst tail.
  apply parse_rounds_sound in Hr. destruct Hr as [-> Hrange].
  exists i, r, (firstn 22 data), (c0 :: cs).
  repeat split; try assumption; try lia.
  - apply str_eqb_neq in H2x.
    destruct Hin as [<- | [<- | [<- | [<- | [<- | []]]]]];
      cbn [In]; auto. now contradiction H2x.
  - now apply forallb_in_charmap.
  - now apply forallb_in_charmap.
  - rewrite <- Hskip, firstn_skipn. reflexivity.
Qed.

(** A well-formed digest is parsed into its four parts. *)
Lemma from_string_complete (i : str) (r : N) (s chk : str) :
  In i [Passlib.IDENT_2; Passlib.IDENT_2A; Passlib.IDENT_2Y; Passlib.IDENT_2B] ->
  (4 <= r <= 31)%N ->
  length s = 22%nat -> Forall (fun c => In c Passlib.bcrypt64_charmap) s ->
  length chk = 31%nat -> Forall (fun c => In c Passlib.bcrypt64_charmap) chk ->
  Passlib.from_string (i ++ Passlib.two_digits r ++ [Passlib.dollar] ++ s ++ chk)
  = Ret (Passlib.mkBcrypt i r s (Some chk)).
Proof.
  intros Hi Hr Hls Hcs Hlc Hcc. unfold Passlib.from_string.
  destruct (parse_ident_complete i
              (Passlib.two_digits r ++ [Passlib.dollar] ++ s ++ chk) Hi)
    as (-> & -> & _).
  rewrite split_dollar_complete, (parse_rounds_complete _ Hr).
  - assert (Hf : firstn 22 (s ++ chk) = s)
      by (rewrite <- Hls; apply firstn_length_app).
    assert (Hk : skipn 22 (s ++ chk) = chk)
      by (rewrite <- Hls; apply skipn_length_app).
    cbv zeta. rewrite Hf, Hk, Hls. cbn [Nat.eqb negb orb].
    apply forallb_in_charmap in Hcs. rewrite Hcs. cbn [negb].
    destruct chk as [| c0 cs]; [discriminate Hlc |].
    rewrite Hlc. apply forallb_in_charmap in Hcc. rewrite Hcc. reflexivity.
  - apply two_digits_no_dollar.
  - apply no_dollar_in_charmap_string, Forall_app. split; assumption.
Qed.

(* ====================================================================== *)
(** * Hashing and verifying *)
(* ====================================================================== *)

Section HashAndVerify.

Variable bcrypt_raw : str -> N -> str -> bytes -> N.

(** When [hash] returns, the secret was accepted, one salt was drawn, and
    the digest is assembled from that salt and the key. *)
Lemma hash_returns_inv (secret : str) (rng rng' : Passlib.Rng) (d : str) :
  Passlib.hash bcrypt_raw secret rng = (Ret d, rng') ->
  exists key,
    Passlib.accepts secret key
    /\ rng' = snd (Passlib.generate_salt rng)
    /\ d = Passlib.default_digest bcrypt_raw (fst (Passlib.generate_salt rng)) key.
Proof.
  unfold Passlib.hash, Passlib.accepts.
  destruct (Passlib.validate_secret secret) as [[] | e] eqn:Hv;
    [| intros H; discriminate H].
  destruct (Passlib.generate_salt rng) as [s rng1] eqn:Hs.
  unfold Passlib.calc_checksum.
  destruct (Passlib.norm_digest_args secret) as [key | e] eqn:Hk;
    cbn [Py.bind]; [| intros H; discriminate H].
  intros H. injection H as <- <-. exists key. cbn [fst snd Passlib.ident
    Passlib.rounds Passlib.salt]. repeat split.
Qed.

(** [hash] returns for every accepted secret. *)
Lemma hash_returns (secret : str) (key : bytes) (rng : Passlib.Rng) :
  Passlib.accepts secret key ->
  Passlib.hash bcrypt_raw secret rng
  = (Ret (Passlib.default_digest bcrypt_raw (fst (Passlib.generate_salt rng)) key),
     snd (Passlib.generate_salt rng)).
Proof.
  intros [Hv Hk]. unfold Passlib.hash. rewrite Hv.
  destruct (Passlib.generate_salt rng) as [s rng1].
  unfold Passlib.calc_checksum. rewrite Hk. reflexivity.
Qed.

(** Verification against a digest of [hash] compares the two checksums
    computed under the digest's salt. *)
Lemma verify_default_digest (s : str) (key : bytes) (secret' : str)
    (key' : bytes) :
  length s = 22%nat ->
  Forall (fun c => In c Passlib.bcrypt64_charmap) s ->
  Passlib.accepts secret' key' ->
  Passlib.CryptContext_verify bcrypt_raw secret'
    (Passlib.default_digest bcrypt_raw s key)
  = Ret (str_eqb
           (Passlib.encode_checksum
              (bcrypt_raw Passlib.IDENT_2B 12%N s (firstn 72 key')))
           (Passlib.encode_checksum
              (bcrypt_raw Passlib.IDENT_2B 12%N s (firstn 72 key)))).
Proof.
  intros Hls Hcs [Hv Hk].
  unfold Passlib.default_digest, Passlib.to_string.
  cbn [Passlib.ident Passlib.rounds Passlib.salt Passlib.checksum].
  assert (Hi : In Passlib.IDENT_2B
                 [Passlib.IDENT_2; Passlib.IDENT_2A; Passlib.IDENT_2Y;
                  Passlib.IDENT_2B]) by (cbn [In]; auto).
  unfold Passlib.CryptContext_verify.
  destruct (parse_ident_complete Passlib.IDENT_2B
              (Passlib.two_digits 12 ++ [Passlib.dollar] ++ s
               ++ Passlib.encode_checksum
                    (bcrypt_raw Passlib.IDENT_2B 12%N s (firstn 72 key))) Hi)
    as (_ & _ & ->).
  unfold Passlib.verify. rewrite Hv. cbn [Py.bind].
  rewrite from_string_complete;
    [| exact Hi | lia | exact Hls | exact Hcs
     | apply encode_checksum_length | apply encode_checksum_charmap].
  cbn [Py.bind Passlib.checksum]. unfold Passlib.calc_checksum.
  rewrite Hk. reflexivity.
Qed.

(** A digest of [hash], verified against an accepted secret. *)
Lemma verify_after_hash (secret secret' : str) (key' : bytes)
    (rng rng' : Passlib.Rng) (d : str) :
  Passlib.hash bcrypt_raw secret rng = (Ret d, rng') ->
  Passlib.accepts secret' key' ->
  exists key,
    Passlib.accepts secret key
    /\ Passlib.CryptContext_verify bcrypt_raw secret' d
       = Ret (str_eqb
                (Passlib.encode_checksum
                   (bcrypt_raw Passlib.IDENT_2B 12%N
                      (fst (Passlib.generate_salt rng)) (firstn 72 key')))
                (Passlib.encode_checksum
                   (bcrypt_raw Passlib.IDENT_2B 12%N
                      (fst (Passlib.generate_salt rng)) (firstn 72 key)))).
Proof.
  intros Hh Hacc. apply hash_returns_inv in Hh.
  destruct Hh as (key & Hkey & _ & ->). exists key. split; [exact Hkey |].
  apply verify_default_digest;
    [apply generate_salt_length | apply generate_salt_charmap | exact Hacc].
Qed.

Lemma accepts_functional (secret : str) (k1 k2 : bytes) :
  Passlib.accepts secret k1 -> Passlib.accepts secret k2 -> k1 = k2.
Proof.
  intros [_ H1] [_ H2]. rewrite H1 in H2. now injection H2.
Qed.

(** Secrets that agree on the first 72 bytes are not told apart. *)
Lemma verify_same_72_bytes (secret secret' : str) (key key' : bytes)
    (rng rng' : Passlib.Rng) (d : str) :
  Passlib.hash bcrypt_raw secret rng = (Ret d, rng') ->
  Passlib.accepts secret key ->
  Passlib.accepts secret' key' ->
  firstn 72 key' = firstn 72 key ->
  Passlib.CryptContext_verify bcrypt_raw secret' d = Ret true.
Proof.
  intros Hh Hk Hk' H72.
  destruct (verify_after_hash _ _ _ _ _ _ Hh Hk') as (key0 & Hk0 & ->).
  rewrite (accepts_functional _ _ _ Hk0 Hk), H72, str_eqb_refl. reflexivity.
Qed.

(** A malformed digest makes verification raise. *)
Lemma verify_returns_well_formed (secret d : str) (b : bool) :
  Passlib.CryptContext_verify bcrypt_raw secret d = Ret b ->
  Spec.is_bcrypt_digest d.
Proof.
  unfold Passlib.CryptContext_verify, Passlib.verify.
  destruct (Passlib.identify d); [| discriminate].
  destruct (Passlib.validate_secret secret) as [[] | e]; cbn [Py.bind];
    [| discriminate].
  destruct (Passlib.from_string d) as [h | e] eqn:Hfs; cbn [Py.bind];
    [| discriminate].
  destruct (Passlib.checksum h) as [chk |] eqn:Hchk; [| discriminate].
  intros _. exact (from_string_sound _ _ _ Hfs Hchk).
Qed.

Lemma verify_malformed_raises (secret d : str) :
  ~ Spec.is_bcrypt_digest d ->
  exists e, Passlib.CryptContext_verify bcrypt_raw secret d = Raise e.
Proof.
  intros Hbad.
  destruct (Passlib.CryptContext_verify bcrypt_raw secret d) as [b | e] eqn:Hv.
  - exfalso. apply Hbad. exact (verify_returns_well_formed _ _ _ Hv).
  - exists e. reflexivity.
Qed.


End HashAndVerify.

(* ====================================================================== *)
(** * [hash_password] and [verify_password] *)
(* ====================================================================== *)

Lemma not_a_digest_malformed :
  ~ Spec.is_bcrypt_digest (pystr "not-a-bcrypt-digest").
Proof.
  intros (i & r & s & chk & Hi & _ & _ & _ & _ & _ & Heq).
  apply (f_equal (fun l => hd 0%N l)) in Heq.
  destruct Hi as [<- | [<- | [<- | [<- | []]]]]; vm_compute in Heq;
    discriminate Heq.
Qed.

Lemma long_passwords_accepted :
  Passlib.accepts Examples.long_a Examples.long_a
  /\ Passlib.accepts Examples.long_b Examples.long_b.
Proof.
  split; split; vm_compute; reflexivity.
Qed.

Lemma example_password_accepted :
  Passlib.accepts (pystr "Secret123") (pystr "Secret123").
Proof.
  split; vm_compute; reflexivity.
Qed.

(** C2, as amended: for a digest string that is not a well-formed bcrypt
    digest, [verify_password] does not return [False]: it raises the error
    of the hashing library, whatever the plaintext. *)
Theorem verify_password_malformed_digest_raises :
  forall (bcrypt_raw : str -> N -> str -> bytes -> N)
         (plain_password hashed_password : str),
    ~ Spec.is_bcrypt_digest hashed_password ->
    (exists e,
        Security.verify_password bcrypt_raw plain_password hashed_password
        = Raise e)
    /\ Security.verify_password bcrypt_raw plain_password hashed_password
       <> Ret false.
Proof.
  intros raw plain hashed Hbad. unfold Security.verify_password.
  destruct (verify_malformed_raises raw plain hashed Hbad) as [e He].
  split; [exists e; exact He |]. rewrite He. discriminate.
Qed.

Lemma verify_password_malformed_digest_raises_witness :
  ~ Spec.is_bcrypt_digest (pystr "not-a-bcrypt-digest")
  /\ ((exists e,
          Security.verify_password Examples.example_raw (pystr "Secret123")
            (pystr "not-a-bcrypt-digest") = Raise e)
      /\ Security.verify_password Examples.example_raw (pystr "Secret123")
           (pystr "not-a-bcrypt-digest") <> Ret false).
Proof.
  split; [exact not_a_digest_malformed |].
  apply (verify_password_malformed_digest_raises Examples.example_raw
           (pystr "Secret123") (pystr "not-a-bcrypt-digest")).
  exact not_a_digest_malformed.
Defined.

(** C2, the failing case: a string that is no bcrypt digest makes
    [verify_password] raise [UnknownHashError] instead of returning
    [False], with any Blowfish backend. *)
Lemma verify_password_raises_on_unknown_hash :
  ~ Spec.is_bcrypt_digest (pystr "not-a-bcrypt-digest")
  /\ (forall bcrypt_raw : str -> N -> str -> bytes -> N,
         Security.verify_password bcrypt_raw (pystr "Secret123")
           (pystr "not-a-bcrypt-digest") = Raise UnknownHashError).
Proof.
  split; [exact not_a_digest_malformed |].
  intros raw. reflexivity.
Qed.

(** C4, as amended: for every password [P] that the hasher accepts,
    [hash_password P] returns a digest [d] and [verify_password P d] is
    [True]; for every [P'] the hasher accepts, [verify_password P' d] is
    [True] exactly when the bcrypt checksums of the first 72 key bytes of
    [P'] and of [P] agree under [d]'s salt, and [False] otherwise. So it is
    [True] for every [P'] whose UTF-8 encoding shares its first 72 bytes
    with that of [P], equal to [P] or not. *)
Theorem verify_password_after_hash_password :
  forall (bcrypt_raw : str -> N -> str -> bytes -> N)
         (P : str) (key : bytes) (rng : Passlib.Rng),
    Passlib.accepts P key ->
    exists (d : str) (rng' : Passlib.Rng),
      Security.hash_password bcrypt_raw P rng = (Ret d, rng')
      /\ Security.verify_password bcrypt_raw P d = Ret true
      /\ (forall (P' : str) (key' : bytes),
             Passlib.accepts P' key' ->
             Security.verify_password bcrypt_raw P' d
             = Ret (str_eqb
                      (Passlib.encode_checksum
                         (bcrypt_raw Passlib.IDENT_2B 12%N
                            (fst (Passlib.generate_salt rng)) (firstn 72 key')))
                      (Passlib.encode_checksum
                         (bcrypt_raw Passlib.IDENT_2B 12%N
                            (fst (Passlib.generate_salt rng)) (firstn 72 key))))
             /\ (firstn 72 key' = firstn 72 key ->
                 Security.verify_password bcrypt_raw P' d = Ret true)).
Proof.
  intros raw P key rng Hkey.
  pose proof (hash_returns raw P key rng Hkey) as Hh.
  exists (Passlib.default_digest raw (fst (Passlib.generate_salt rng)) key),
    (snd (Passlib.generate_salt rng)).
  unfold Security.hash_password, Passlib.CryptContext_hash,
    Security.verify_password.
  split; [exact Hh |]. split.
  - exact (verify_same_72_bytes raw P P key key rng _ _ Hh Hkey Hkey eq_refl).
  - intros P' key' Hk'. split.
    + destruct (verify_after_hash raw P P' key' rng _ _ Hh Hk')
        as (key0 & Hk0 & ->).
      now rewrite (accepts_functional P key0 key Hk0 Hkey).
    + intros H72.
      exact (verify_same_72_bytes raw P P' key key' rng _ _ Hh Hkey Hk' H72).
Qed.

Lemma verify_password_after_hash_password_witness :
  Passlib.accepts (pystr "Secret123") (pystr "Secret123")
  /\ exists (d : str) (rng' : Passlib.Rng),
      Security.hash_password Examples.example_raw (pystr "Secret123")
        Examples.example_rng = (Ret d, rng')
      /\ Security.verify_password Examples.example_raw (pystr "Secret123") d
         = Ret true.
Proof.
  split; [exact example_password_accepted |].
  destruct (verify_password_after_hash_password Examples.example_raw
              (pystr "Secret123") (pystr "Secret123") Examples.example_rng
              example_password_accepted) as (d & rng' & Hh & Hv & _).
  exists d, rng'. split; [exact Hh | exact Hv].
Defined.

(** C4, the failing case: two different passwords of 73 characters that
    share their first 72; the digest of one verifies the other, with any
    Blowfish backend and any salt. *)
Lemma verify_password_accepts_other_long_password :
  Examples.long_b <> Examples.long_a
  /\ (forall (bcrypt_raw : str -> N -> str -> bytes -> N) (rng : Passlib.Rng),
         exists d,
           fst (Security.hash_password bcrypt_raw Examples.long_a rng) = Ret d
           /\ Security.verify_password bcrypt_raw Examples.long_b d = Ret true).
Proof.
  split; [vm_compute; discriminate |].
  intros raw rng. destruct long_passwords_accepted as [Ha Hb].
  pose proof (hash_returns raw Examples.long_a Examples.long_a rng Ha) as Hh.
  eexists. unfold Security.hash_password, Passlib.CryptContext_hash,
    Security.verify_password.
  rewrite Hh. split; [reflexivity |].
  exact (verify_same_72_bytes raw Examples.long_a Examples.long_b
           Examples.long_a Examples.long_b rng _ _ Hh Ha Hb eq_refl).
Qed.




(** The two digests of the example, evaluated. *)
Lemma example_digests :
  Security.hash_password Examples.example_raw (pystr "Secret123")
    Examples.example_rng
  = (Ret Examples.first_digest, Examples.rng_after 1)
  /\ Security.hash_password Examples.example_raw (pystr "Secret123")
       (Examples.rng_after 1)
     = (Ret Examples.second_digest, Examples.rng_after 2)
  /\ Examples.first_digest <> Examples.second_digest
  /\ Security.verify_password Examples.example_raw (pystr "Secret123")
       Examples.first_digest = Ret true
  /\ Security.verify_password Examples.example_raw (pystr "Secret124")
       Examples.first_digest = Ret false.
Proof.
  repeat split; try (vm_compute; reflexivity).
  vm_compute. discriminate.
Qed.

(* ====================================================================== *)
(** * Stripping and splitting *)
(* ====================================================================== *)

Section StripSplit.

Variable f : char -> bool.

Lemma lstrip_by_split (s : str) :
  exists ws, s = ws ++ Builtins.lstrip_by f s /\ forallb f ws = true.
Proof.
  induction s as [| c s IH]; cbn [Builtins.lstrip_by].
  - exists []. split; reflexivity.
  - destruct (f c) eqn:Hc.
    + destruct IH as (ws & Hs & Hws). exists (c :: ws). split.
      * cbn [app]. now rewrite <- Hs.
      * cbn [forallb]. now rewrite Hc, Hws.
    + exists []. split; reflexivity.
Qed.

Lemma lstrip_by_head (s : str) (c : char) (r : str) :
  Builtins.lstrip_by f s = c :: r -> f c = false.
Proof.
  induction s as [| x s IH]; cbn [Builtins.lstrip_by]; [discriminate |].
  destruct (f x) eqn:Hx; [exact IH |].
  intros H. injection H as <- _. exact Hx.
Qed.

Lemma rstrip_by_cons_keep (c : char) (s : str) :
  f c = false ->
  Builtins.rstrip_by f (c :: s) = c :: Builtins.rstrip_by f s.
Proof.
  intros Hc. cbn [Builtins.rstrip_by].
  destruct (Builtins.rstrip_by f s); [now rewrite Hc | reflexivity].
Qed.

Lemma rstrip_by_split (s : str) :
  exists ws, s = Builtins.rstrip_by f s ++ ws /\ forallb f ws = true.
Proof.
  induction s as [| c s IH]; cbn [Builtins.rstrip_by].
  - exists []. split; reflexivity.
  - destruct IH as (ws & Hs & Hws).
    destruct (Builtins.rstrip_by f s) as [| x r] eqn:Hr.
    + cbn [app] in Hs. subst ws. destruct (f c) eqn:Hc.
      * exists (c :: s). split; [reflexivity |].
        cbn [forallb]. now rewrite Hc, Hws.
      * exists s. split; [reflexivity | exact Hws].
    + exists ws. split; [| exact Hws]. cbn [app]. now rewrite Hs at 1.
Qed.

Lemma rstrip_by_last (s : str) (d : char) :
  Builtins.rstrip_by f s <> [] -> f (last (Builtins.rstrip_by f s) d) = false.
Proof.
  induction s as [| c s IH]; cbn [Builtins.rstrip_by]; [intros H; now contradiction H |].
  destruct (Builtins.rstrip_by f s) as [| x r] eqn:Hr.
  - destruct (f c) eqn:Hc; [intros H; now contradiction H |].
    intros _. exact Hc.
  - intros _. change (last (c :: x :: r) d) with (last (x :: r) d).
    apply IH. discriminate.
Qed.

Lemma rstrip_by_head (s : str) (c : char) (r : str) :
  Builtins.rstrip_by f s = c :: r -> exists s', s = c :: s'.
Proof.
  destruct s as [| x s]; cbn [Builtins.rstrip_by]; [discriminate |].
  destruct (Builtins.rstrip_by f s); [destruct (f x) |];
    intros H; try discriminate; injection H as <- _; eexists; reflexivity.
Qed.

Lemma rstrip_by_none (s : str) :
  forallb (fun c => negb (f c)) s = true -> Builtins.rstrip_by f s = s.
Proof.
  induction s as [| c s IH]; [reflexivity |].
  cbn [forallb]. intros H. apply andb_true_iff in H. destruct H as [Hc Hs].
  apply negb_true_iff in Hc. rewrite (rstrip_by_cons_keep _ _ Hc).
  now rewrite (IH Hs).
Qed.

Lemma lstrip_by_none (s : str) :
  forallb (fun c => negb (f c)) s = true -> Builtins.lstrip_by f s = s.
Proof.
  destruct s as [| c s]; [reflexivity |].
  cbn [forallb Builtins.lstrip_by]. intros H.
  apply andb_true_iff in H. destruct H as [Hc _].
  apply negb_true_iff in Hc. now rewrite Hc.
Qed.

(** [strip] removes a run of the class at each end and nothing else; what
    is left neither starts nor ends with a character of the class. *)
Lemma strip_split (s : str) :
  exists pre post,
    s = pre ++ Builtins.strip f s ++ post
    /\ forallb f pre = true /\ forallb f post = true
    /\ Props.trimmed f (Builtins.strip f s).
Proof.
  unfold Builtins.strip.
  destruct (lstrip_by_split s) as (pre & Hs & Hpre).
  destruct (rstrip_by_split (Builtins.lstrip_by f s)) as (post & Hl & Hpost).
  exists pre, post. split; [| split; [exact Hpre | split; [exact Hpost |]]].
  - rewrite <- Hl. exact Hs.
  - unfold Props.trimmed.
    destruct (Builtins.rstrip_by f (Builtins.lstrip_by f s)) as [| c r] eqn:Hr;
      [exact I |].
    split.
    + destruct (rstrip_by_head _ _ _ Hr) as (s' & Hs').
      exact (lstrip_by_head _ _ _ Hs').
    + rewrite <- Hr. apply rstrip_by_last. rewrite Hr. discriminate.
Qed.

Lemma strip_none (s : str) :
  forallb (fun c => negb (f c)) s = true -> Builtins.strip f s = s.
Proof.
  intros H. unfold Builtins.strip. rewrite (lstrip_by_none _ H).
  exact (rstrip_by_none _ H).
Qed.

Lemma strip_subset (s : str) (c : char) :
  In c (Builtins.strip f s) -> In c s.
Proof.
  destruct (strip_split s) as (pre & post & Hs & _).
  intros Hin. rewrite Hs. apply in_or_app. right. apply in_or_app. now left.
Qed.

End StripSplit.

Lemma split_nonempty (sep : char) (s : str) : Builtins.split sep s <> [].
Proof.
  destruct s as [| c s]; cbn [Builtins.split]; [discriminate |].
  destruct (N.eqb c sep); [discriminate |].
  destruct (Builtins.split sep s); discriminate.
Qed.

Lemma split_length (sep : char) (s : str) :
  length (Builtins.split sep s) = S (count_occ N.eq_dec s sep).
Proof.
  induction s as [| c s IH]; [reflexivity |].
  cbn [Builtins.split count_occ].
  destruct (N.eqb_spec c sep) as [-> | Hne].
  - destruct (N.eq_dec sep sep) as [_ | H]; [| now contradiction H].
    cbn [length]. now rewrite IH.
  - destruct (N.eq_dec c sep) as [H | _]; [now contradiction Hne |].
    destruct (Builtins.split sep s) as [| p rest] eqn:Hsp;
      [now contradiction (split_nonempty sep s) |].
    exact IH.
Qed.

Lemma split_no_sep (sep : char) (s : str) :
  Forall (fun p => ~ In sep p) (Builtins.split sep s).
Proof.
  induction s as [| c s IH]; cbn [Builtins.split].
  - constructor; [intros [] | constructor].
  - destruct (N.eqb_spec c sep) as [-> | Hne].
    + constructor; [intros [] | exact IH].
    + destruct (Builtins.split sep s) as [| p rest].
      * constructor; [| constructor]. intros [H | []]. now apply Hne.
      * inversion IH as [| ? ? Hp Hrest]; subst. constructor; [| exact Hrest].
        intros [H | H]; [now apply Hne | now apply Hp].
Qed.

Lemma join_split (sep : char) (s : str) :
  Builtins.join sep (Builtins.split sep s) = s.
Proof.
  induction s as [| c s IH]; [reflexivity |].
  cbn [Builtins.split].
  destruct (N.eqb_spec c sep) as [-> | Hne].
  - pose proof (split_nonempty sep s) as Hne.
    destruct (Builtins.split sep s) as [| p rest]; [now contradiction Hne |].
    change (Builtins.join sep ([] :: p :: rest))
      with ([] ++ sep :: Builtins.join sep (p :: rest)).
    cbn [app]. now rewrite IH.
  - destruct (Builtins.split sep s) as [| p rest] eqn:Hsp;
      [now contradiction (split_nonempty sep s) |].
    destruct rest as [| q rest].
    + cbn [Builtins.join] in *. now rewrite IH.
    + change (Builtins.join sep ((c :: p) :: q :: rest))
        with ((c :: p) ++ sep :: Builtins.join sep (q :: rest)).
      change (Builtins.join sep (p :: q :: rest))
        with (p ++ sep :: Builtins.join sep (q :: rest)) in IH.
      cbn [app]. now rewrite IH.
Qed.

Lemma split_subset (sep : char) (s p : str) (c : char) :
  In p (Builtins.split sep s) -> In c p -> In c s.
Proof.
  revert p. induction s as [| x s IH]; intros p; cbn [Builtins.split].
  - intros [<- | []] [].
  - destruct (N.eqb_spec x sep) as [-> | Hne].
    + intros [<- | Hin] Hc; [destruct Hc |]. right. exact (IH p Hin Hc).
    + destruct (Builtins.split sep s) as [| q rest].
      * intros [<- | []] [<- | []]. now left.
      * intros [<- | Hin] Hc.
        -- destruct Hc as [<- | Hc]; [now left |].
           right. apply (IH q); [now left | exact Hc].
        -- right. apply (IH p); [now right | exact Hc].
Qed.

Section Trimmed.

Variable f : char -> bool.

Lemma rstrip_by_last_kept (s : str) (d : char) :
  s <> [] -> f (last s d) = false -> Builtins.rstrip_by f s = s.
Proof.
  induction s as [| c s IH]; [intros H; now contradiction H |].
  intros _ Hlast. cbn [Builtins.rstrip_by].
  destruct s as [| x s].
  - cbn [Builtins.rstrip_by last] in *. now rewrite Hlast.
  - change (last (c :: x :: s) d) with (last (x :: s) d) in Hlast.
    rewrite IH; [reflexivity | discriminate | exact Hlast].
Qed.

Lemma strip_trimmed (s : str) : Props.trimmed f s -> Builtins.strip f s = s.
Proof.
  destruct s as [| c s]; [reflexivity |].
  intros [Hc Hlast]. unfold Builtins.strip.
  cbn [Builtins.lstrip_by]. rewrite Hc.
  apply (rstrip_by_last_kept (c :: s) c); [discriminate | exact Hlast].
Qed.

End Trimmed.

(* ====================================================================== *)
(** * [sanitize_email] *)
(* ====================================================================== *)

Section SanitizeEmail.

Variable lower : str -> str.
Variable isspace : char -> bool.

(** X1: [sanitize_email] returns the lower-cased address without the
    whitespace at its two ends and with everything between them kept:
    the lower-cased address is a run of whitespace, the result, and a run
    of whitespace, and the result neither starts nor ends with
    whitespace. *)
Theorem sanitize_email_trims_both_ends_only :
  forall email : str,
    exists pre post,
      lower email
      = pre ++ SecurityUtils.sanitize_email lower isspace email ++ post
      /\ forallb isspace pre = true
      /\ forallb isspace post = true
      /\ Props.trimmed isspace
           (SecurityUtils.sanitize_email lower isspace email).
Proof.
  intros email. unfold SecurityUtils.sanitize_email.
  exact (strip_split isspace (lower email)).
Qed.

(** X2: sanitising twice gives what sanitising once gives, for every
    address whose sanitised form is left alone by [lower]. *)
Theorem sanitize_email_idempotent :
  forall email : str,
    lower (SecurityUtils.sanitize_email lower isspace email)
    = SecurityUtils.sanitize_email lower isspace email ->
    SecurityUtils.sanitize_email lower isspace
      (SecurityUtils.sanitize_email lower isspace email)
    = SecurityUtils.sanitize_email lower isspace email.
Proof.
  intros email Hlow.
  unfold SecurityUtils.sanitize_email at 1. rewrite Hlow.
  apply strip_trimmed.
  destruct (strip_split isspace (lower email)) as (_ & _ & _ & _ & _ & H).
  exact H.
Qed.

End SanitizeEmail.

(* ====================================================================== *)
(** * URL-safe tokens *)
(* ====================================================================== *)

Ltac byte_arith := zify; Z.to_euclidean_division_equations; lia.

Lemma list_ind3 {A} (P : list A -> Prop) :
  P [] -> (forall a, P [a]) -> (forall a b, P [a; b]) ->
  (forall a b c l, P l -> P (a :: b :: c :: l)) ->
  forall l, P l.
Proof.
  intros H0 H1 H2 H3 l.
  assert (H : P l /\ (forall a, P (a :: l)) /\ (forall a b, P (a :: b :: l))).
  { induction l as [| x l (Ha & Hb & Hc)].
    - repeat split; auto.
    - repeat split; auto. }
  exact (proj1 H).
Qed.

Lemma urlsafe_alphabet_length : length Secrets.urlsafe_alphabet = 64%nat.
Proof. vm_compute. reflexivity. Qed.

Lemma urlsafe_b64char_in (i : N) :
  In (Secrets.b64char i) Secrets.urlsafe_alphabet.
Proof.
  unfold Secrets.b64char. apply nth_In. rewrite urlsafe_alphabet_length.
  assert (i mod 64 < 64)%N by (apply N.mod_lt; discriminate). lia.
Qed.

Lemma urlsafe_b64char_not_pad (i : N) :
  N.eqb Secrets.pad (Secrets.b64char i) = false.
Proof.
  apply N.eqb_neq. intros H.
  pose proof (urlsafe_b64char_in i) as Hin. rewrite <- H in Hin.
  revert Hin. vm_compute. intuition discriminate.
Qed.

Lemma urlsafe_b64index_b64char (i : N) :
  Secrets.b64index (Secrets.b64char i) = (i mod 64)%N.
Proof.
  assert (Hall : forallb
                   (fun k => N.eqb (Secrets.b64index (Secrets.b64char k)) k)
                   (map N.of_nat (seq 0 64)) = true)
    by (vm_compute; reflexivity).
  rewrite forallb_forall in Hall.
  assert (Hlt : (i mod 64 < 64)%N) by (apply N.mod_lt; discriminate).
  assert (Hch : Secrets.b64char i = Secrets.b64char (i mod 64)).
  { unfold Secrets.b64char. now rewrite N.Div0.mod_mod. }
  rewrite Hch. remember (i mod 64)%N as k eqn:Ek. clear Ek Hch.
  apply N.eqb_eq, Hall.
  apply in_map_iff. exists (N.to_nat k). split.
  - apply N2Nat.id.
  - apply in_seq. lia.
Qed.

Lemma rstrip_pad_b64char (i : N) (s : str) :
  Builtins.rstrip_by (N.eqb Secrets.pad) (Secrets.b64char i :: s)
  = Secrets.b64char i :: Builtins.rstrip_by (N.eqb Secrets.pad) s.
Proof.
  apply rstrip_by_cons_keep, urlsafe_b64char_not_pad.
Qed.

Lemma rstrip_pad_pads :
  Builtins.rstrip_by (N.eqb Secrets.pad) [Secrets.pad] = []
  /\ Builtins.rstrip_by (N.eqb Secrets.pad) [Secrets.pad; Secrets.pad] = [].
Proof. split; reflexivity. Qed.



(** Decoding the unpadded encoding gives the bytes back. *)
Lemma unpadded_decode (bs : bytes) :
  Forall Props.is_byte bs ->
  Secrets.urlsafe_b64decode
    (Builtins.rstrip_by (N.eqb Secrets.pad) (Secrets.urlsafe_b64encode bs))
  = bs.
Proof.
  unfold Props.is_byte.
  induction bs as [| a | a b | a b c rest IH] using list_ind3; intros Hb.
  - reflexivity.
  - inversion Hb as [| ? ? Ha _]; subst.
    cbn [Secrets.urlsafe_b64encode]. rewrite !rstrip_pad_b64char.
    rewrite (proj2 rstrip_pad_pads). cbn [Secrets.urlsafe_b64decode].
    rewrite !urlsafe_b64index_b64char. f_equal. byte_arith.
  - inversion Hb as [| ? ? Ha Hb']; subst.
    inversion Hb' as [| ? ? Hb2 _]; subst.
    cbn [Secrets.urlsafe_b64encode]. rewrite !rstrip_pad_b64char.
    rewrite (proj1 rstrip_pad_pads). cbn [Secrets.urlsafe_b64decode].
    rewrite !urlsafe_b64index_b64char.
    f_equal; [byte_arith | f_equal; byte_arith].
  - inversion Hb as [| ? ? Ha Hb']; subst.
    inversion Hb' as [| ? ? Hb2 Hb'']; subst.
    inversion Hb'' as [| ? ? Hc Hrest]; subst.
    cbn [Secrets.urlsafe_b64encode]. rewrite !rstrip_pad_b64char.
    cbn [Secrets.urlsafe_b64decode].
    rewrite !urlsafe_b64index_b64char, (IH Hrest).
    f_equal; [byte_arith | f_equal; [byte_arith | f_equal; byte_arith]].
Qed.


Lemma random_bytes_are_bytes (n : nat) (entropy : N) :
  Forall Props.is_byte (Secrets.random_bytes n entropy).
Proof.
  revert entropy. induction n as [| n IH]; intros entropy;
    cbn [Secrets.random_bytes]; constructor; [| apply IH].
  unfold Props.is_byte. apply N.mod_lt. discriminate.
Qed.

(** What [os.urandom] returns is a list of bytes of the requested size. *)
Lemma urandom_returns (allocates : Z -> bool) (n : Z) (entropy : N)
    (tok : bytes) :
  Secrets.urandom allocates n entropy = Builtins.Returns tok ->
  (0 <= n <= Secrets.PY_SSIZE_T_MAX)%Z /\ allocates n = true
  /\ tok = Secrets.random_bytes (Z.to_nat n) entropy.
Proof.
  unfold Secrets.urandom, Secrets.PY_SSIZE_T_MAX.
  destruct (Z.ltb_spec n (- (2 ^ 63 - 1) - 1)); cbn [orb]; [discriminate |].
  destruct (Z.ltb_spec (2 ^ 63 - 1) n); [discriminate |].
  destruct (Z.ltb_spec n 0); [discriminate |].
  destruct (allocates n); [| discriminate].
  intros Heq. injection Heq as <-. repeat split; lia.
Qed.

(** Which error [os.urandom] raises does not depend on the entropy. *)
Lemma urandom_raises (allocates : Z -> bool) (n : Z) (e1 e2 : N)
    (r : Builtins.raised) :
  Secrets.urandom allocates n e1 = Builtins.Raises r ->
  Secrets.urandom allocates n e2 = Builtins.Raises r.
Proof.
  unfold Secrets.urandom.
  destruct ((n <? - Secrets.PY_SSIZE_T_MAX - 1)%Z
            || (Secrets.PY_SSIZE_T_MAX <? n)%Z); [exact (fun H => H) |].
  destruct (n <? 0)%Z; [exact (fun H => H) |].
  destruct (allocates n); [discriminate | exact (fun H => H)].
Qed.

Section RandomTokens.

Variable allocates : Z -> bool.


(** X4: two tokens of the same requested length are different whenever
    the random bytes behind them are: the encoding loses nothing of the
    entropy drawn. *)
Theorem generate_random_token_injective :
  forall (length : Z) (e1 e2 : N),
    Secrets.urandom allocates length e1 <> Secrets.urandom allocates length e2 ->
    SecurityUtils.generate_random_token allocates length e1
    <> SecurityUtils.generate_random_token allocates length e2.
Proof.
  intros n e1 e2 Hne.
  unfold SecurityUtils.generate_random_token, Secrets.token_urlsafe,
    Secrets.token_bytes.
  destruct (Secrets.urandom allocates n e1) as [t1 | r1] eqn:H1.
  - destruct (Secrets.urandom allocates n e2) as [t2 | r2] eqn:H2;
      [| discriminate].
    destruct (urandom_returns allocates n e1 t1 H1) as (_ & _ & ->).
    destruct (urandom_returns allocates n e2 t2 H2) as (_ & _ & ->).
    intros Heq. injection Heq as Heq. apply Hne. f_equal.
    apply (f_equal Secrets.urlsafe_b64decode) in Heq.
    rewrite !unpadded_decode in Heq by apply random_bytes_are_bytes.
    exact Heq.
  - exfalso. apply Hne.
    now rewrite (urandom_raises allocates n e1 e2 r1 H1).
Qed.

End RandomTokens.

(* ====================================================================== *)
(** * [hash_token] *)
(* ====================================================================== *)

Lemma utf8_encode_returns (s : str) :
  Forall Props.encodable s -> exists data, utf8_encode s = Ret data.
Proof.
  induction 1 as [| c s Hc _ (data & IH)]; cbn [utf8_encode].
  - eexists. reflexivity.
  - unfold Props.encodable in Hc.
    destruct (utf8_encode_char c) as [bs |]; [| now contradiction Hc].
    rewrite IH. eexists. reflexivity.
Qed.

Lemma utf8_encode_raises (s : str) :
  ~ Forall Props.encodable s -> utf8_encode s = Raise UnicodeEncodeError.
Proof.
  induction s as [| c s IH]; intros Hn.
  - exfalso. apply Hn. constructor.
  - cbn [utf8_encode].
    destruct (utf8_encode_char c) as [bs |] eqn:Hc; [| reflexivity].
    rewrite IH; [reflexivity |].
    intros Hs. apply Hn. constructor; [| exact Hs].
    unfold Props.encodable. rewrite Hc. discriminate.
Qed.

Lemma be_bytes_length (n : nat) (v : N) : length (Hashlib.be_bytes n v) = n.
Proof.
  revert v. induction n as [| n IH]; intros v; cbn [Hashlib.be_bytes];
    [reflexivity |].
  rewrite length_app, IH. cbn [length]. lia.
Qed.

Lemma hex_length (bs : bytes) : length (Hashlib.hex bs) = (2 * length bs)%nat.
Proof.
  unfold Hashlib.hex. induction bs as [| b bs IH]; [reflexivity |].
  cbn [flat_map app length]. rewrite IH. lia.
Qed.

Lemma hexchar_in (i : N) : In (Hashlib.hexchar i) Hashlib.hexdigits.
Proof.
  unfold Hashlib.hexchar. apply nth_In.
  assert (i mod 16 < 16)%N by (apply N.mod_lt; discriminate).
  change (length Hashlib.hexdigits) with 16%nat. lia.
Qed.

Lemma hex_digits (bs : bytes) :
  Forall (fun c => In c Hashlib.hexdigits) (Hashlib.hex bs).
Proof.
  unfold Hashlib.hex. induction bs as [| b bs IH]; [constructor |].
  cbn [flat_map app].
  constructor; [apply hexchar_in |]. constructor; [apply hexchar_in | exact IH].
Qed.

(** X5: [hash_token] returns, for every token that UTF-8 can encode, a
    string of exactly 64 characters, each one of [0-9a-f]; for a token
    with a lone surrogate it raises [UnicodeEncodeError]. The copy in
    [token_service.py] computes the same. *)
Theorem hash_token_sixty_four_hex_digits :
  forall (sha256 : bytes -> N) (token : str),
    (Forall Props.encodable token ->
     exists h,
       SecurityUtils.hash_token sha256 token = Ret h
       /\ length h = 64%nat
       /\ Forall (fun c => In c Hashlib.hexdigits) h)
    /\ (~ Forall Props.encodable token ->
        SecurityUtils.hash_token sha256 token = Raise UnicodeEncodeError)
    /\ TokenHelpers.hash_token sha256 token
       = SecurityUtils.hash_token sha256 token.
Proof.
  intros sha256 token. unfold SecurityUtils.hash_token.
  split; [| split; [| reflexivity]].
  - intros Henc. destruct (utf8_encode_returns token Henc) as (data & ->).
    cbn [Py.bind]. eexists. split; [reflexivity |].
    unfold Hashlib.sha256_hexdigest. split.
    + rewrite hex_length, be_bytes_length. reflexivity.
    + apply hex_digits.
  - intros Hn. now rewrite (utf8_encode_raises token Hn).
Qed.

(* ====================================================================== *)
(** * [Settings.cors_origins_list] *)
(* ====================================================================== *)

Section CorsOrigins.

Variable isspace : char -> bool.

(** X6: [cors_origins_list] has one entry more than [CORS_ORIGINS] has
    commas; it is never empty, an empty setting gives one empty origin. *)
Theorem cors_origins_list_count :
  forall CORS_ORIGINS : str,
    length (Settings.cors_origins_list isspace CORS_ORIGINS)
    = S (count_occ N.eq_dec CORS_ORIGINS Builtins.comma)
    /\ Settings.cors_origins_list isspace CORS_ORIGINS <> []
    /\ Settings.cors_origins_list isspace [] = [[]].
Proof.
  intros s. unfold Settings.cors_origins_list.
  rewrite length_map, split_length. split; [reflexivity |]. split.
  - pose proof (split_nonempty Builtins.comma s) as Hne.
    destruct (Builtins.split Builtins.comma s); [now contradiction Hne |].
    discriminate.
  - reflexivity.
Qed.

(** X7: no origin of [cors_origins_list] contains a comma, and none starts
    or ends with whitespace. *)
Theorem cors_origins_list_entries_clean :
  forall CORS_ORIGINS : str,
    Forall (fun origin => ~ In Builtins.comma origin
                          /\ Props.trimmed isspace origin)
      (Settings.cors_origins_list isspace CORS_ORIGINS).
Proof.
  intros s. unfold Settings.cors_origins_list.
  apply Forall_forall. intros o Ho. apply in_map_iff in Ho.
  destruct Ho as (p & <- & Hp). split.
  - intros Hin. apply strip_subset in Hin.
    pose proof (split_no_sep Builtins.comma s) as Hall.
    rewrite Forall_forall in Hall. exact (Hall p Hp Hin).
  - destruct (strip_split isspace p) as (_ & _ & _ & _ & _ & H). exact H.
Qed.

(** X8: when [CORS_ORIGINS] holds no whitespace at all, the origins are
    its comma-separated pieces unchanged: joining them with commas gives
    the setting back. *)
Theorem cors_origins_list_join :
  forall CORS_ORIGINS : str,
    forallb (fun c => negb (isspace c)) CORS_ORIGINS = true ->
    Settings.cors_origins_list isspace CORS_ORIGINS
    = Builtins.split Builtins.comma CORS_ORIGINS
    /\ Builtins.join Builtins.comma
         (Settings.cors_origins_list isspace CORS_ORIGINS)
       = CORS_ORIGINS.
Proof.
  intros s Hs. unfold Settings.cors_origins_list.
  assert (Hmap : map (Builtins.strip isspace) (Builtins.split Builtins.comma s)
                 = Builtins.split Builtins.comma s).
  { rewrite <- (map_id (Builtins.split Builtins.comma s)) at 2.
    apply map_ext_in. intros p Hp. apply strip_none.
    apply forallb_forall. intros c Hc.
    rewrite forallb_forall in Hs. apply Hs.
    exact (split_subset Builtins.comma s p c Hp Hc). }
  rewrite Hmap. split; [reflexivity | apply join_split].
Qed.

End CorsOrigins.

Lemma cors_origins_list_join_witness :
  forallb (fun c => negb (Props.ascii_isspace c)) Settings.CORS_ORIGINS_default
  = true
  /\ Settings.cors_origins_list Props.ascii_isspace Settings.CORS_ORIGINS_default
     = [pystr "http://localhost:3000"; pystr "http://localhost:8080"]
  /\ Builtins.join Builtins.comma
       (Settings.cors_origins_list Props.ascii_isspace
          Settings.CORS_ORIGINS_default)
     = Settings.CORS_ORIGINS_default.
Proof.
  assert (H : forallb (fun c => negb (Props.ascii_isspace c))
                Settings.CORS_ORIGINS_default = true)
    by (vm_compute; reflexivity).
  split; [exact H |]. split; [vm_compute; reflexivity |].
  exact (proj2 (cors_origins_list_join Props.ascii_isspace
                  Settings.CORS_ORIGINS_default H)).
Defined.

Lemma sanitize_email_idempotent_witness :
  Props.ascii_lower
    (SecurityUtils.sanitize_email Props.ascii_lower Props.ascii_isspace
       (pystr "  Ana.Perez@Example.COM "))
  = SecurityUtils.sanitize_email Props.ascii_lower Props.ascii_isspace
      (pystr "  Ana.Perez@Example.COM ")
  /\ SecurityUtils.sanitize_email Props.ascii_lower Props.ascii_isspace
       (pystr "  Ana.Perez@Example.COM ")
     = pystr "ana.perez@example.com"
  /\ SecurityUtils.sanitize_email Props.ascii_lower Props.ascii_isspace
       (SecurityUtils.sanitize_email Props.ascii_lower Props.ascii_isspace
          (pystr "  Ana.Perez@Example.COM "))
     = SecurityUtils.sanitize_email Props.ascii_lower Props.ascii_isspace
         (pystr "  Ana.Perez@Example.COM ").
Proof.
  assert (H : Props.ascii_lower
                (SecurityUtils.sanitize_email Props.ascii_lower
                   Props.ascii_isspace (pystr "  Ana.Perez@Example.COM "))
              = SecurityUtils.sanitize_email Props.ascii_lower
                  Props.ascii_isspace (pystr "  Ana.Perez@Example.COM "))
    by (vm_compute; reflexivity).
  split; [exact H |]. split; [vm_compute; reflexivity |].
  exact (sanitize_email_idempotent Props.ascii_lower Props.ascii_isspace
           (pystr "  Ana.Perez@Example.COM ") H).
Defined.

Lemma generate_random_token_injective_witness :
  SecurityUtils.generate_random_token Props.a_mebibyte 32 12345
  = Builtins.Returns (pystr "OTAAAAAAAAAAAAAAAAAAAAAAAAAAAAAAAAAAAAAAAAA")
  /\ Secrets.urandom Props.a_mebibyte 32 12345
     <> Secrets.urandom Props.a_mebibyte 32 12346
  /\ SecurityUtils.generate_random_token Props.a_mebibyte 32 12345
     <> SecurityUtils.generate_random_token Props.a_mebibyte 32 12346.
Proof.
  assert (H : Secrets.urandom Props.a_mebibyte 32 12345
              <> Secrets.urandom Props.a_mebibyte 32 12346)
    by (vm_compute; discriminate).
  split; [vm_compute; reflexivity |]. split; [exact H |].
  exact (generate_random_token_injective Props.a_mebibyte 32 12345 12346 H).
Defined.

(* ====================================================================== *)
(** * Request schemas *)
(* ====================================================================== *)

Section RegisterOutcome.

Variable EmailStr : str -> option str.

(** X9: [UserRegister] accepts a JSON body exactly when its three fields
    are present and are strings, [EmailStr] accepts the address and the
    password has 8 to 100 characters; the model then holds the normalised
    address, the password and the confirmation as given. A refused body is
    reported field by field, at most one error each: a field that is absent
    is [missing], one that is not a string is [string_type], a rejected
    address is a [value_error], a password is too short below 8 and too
    long above 100 characters; [password_confirm] is reported only when it
    is absent or not a string, never for what it contains. On a body of
    three strings the outcome is that of the field validators of
    [Schemas.UserRegister_validate]. *)
Theorem UserRegister_validate_outcome :
  (forall (body : RequestSchemas.RegisterBody) (m : Schemas.UserRegister),
      RequestSchemas.UserRegister_model_validate EmailStr body = inr m
      <-> exists a,
            RequestSchemas.b_email body = Some (RequestSchemas.JStr a)
            /\ EmailStr a = Some (Schemas.email m)
            /\ RequestSchemas.b_password body
               = Some (RequestSchemas.JStr (Schemas.password m))
            /\ (8 <= length (Schemas.password m) <= 100)%nat
            /\ RequestSchemas.b_password_confirm body
               = Some (RequestSchemas.JStr (Schemas.password_confirm m)))
  /\ (forall (body : RequestSchemas.RegisterBody) errs,
         RequestSchemas.UserRegister_model_validate EmailStr body = inl errs ->
         errs <> []
         /\ NoDup (map fst errs)
         /\ (forall k,
                In (Schemas.f_email, k) errs
                <-> match RequestSchemas.b_email body with
                    | None => k = RequestSchemas.missing
                    | Some RequestSchemas.JOther =>
                        k = RequestSchemas.string_type
                    | Some (RequestSchemas.JStr a) =>
                        EmailStr a = None
                        /\ k = RequestSchemas.invalid Schemas.value_error
                    end)
         /\ (forall k,
                In (Schemas.f_password, k) errs
                <-> match RequestSchemas.b_password body with
                    | None => k = RequestSchemas.missing
                    | Some RequestSchemas.JOther =>
                        k = RequestSchemas.string_type
                    | Some (RequestSchemas.JStr p) =>
                        ((length p < 8)%nat
                         /\ k = RequestSchemas.invalid Schemas.string_too_short)
                        \/ ((100 < length p)%nat
                            /\ k = RequestSchemas.invalid
                                     Schemas.string_too_long)
                    end)
         /\ (forall k,
                In (Schemas.f_password_confirm, k) errs
                <-> match RequestSchemas.b_password_confirm body with
                    | None => k = RequestSchemas.missing
                    | Some RequestSchemas.JOther =>
                        k = RequestSchemas.string_type
                    | Some (RequestSchemas.JStr _) => False
                    end))
  /\ (forall input : Schemas.RegisterInput,
         RequestSchemas.UserRegister_model_validate EmailStr
           {| RequestSchemas.b_email :=
                Some (RequestSchemas.JStr (Schemas.in_email input));
              RequestSchemas.b_password :=
                Some (RequestSchemas.JStr (Schemas.in_password input));
              RequestSchemas.b_password_confirm :=
                Some (RequestSchemas.JStr (Schemas.in_password_confirm input)) |}
         = match Schemas.UserRegister_validate EmailStr input with
           | inr m => inr m
           | inl es =>
               inl (map (fun fe => (fst fe, RequestSchemas.invalid (snd fe))) es)
           end).
Proof.
  split; [| split].
  - intros [be bp bc] [e p c].
    unfold RequestSchemas.UserRegister_model_validate.
    unfold RequestSchemas.required_str, Schemas.validate_email_field,
      Schemas.validate_password_field, Schemas.validate_password_strength,
      Schemas.validate_password_confirm_field.
    cbn [RequestSchemas.b_email RequestSchemas.b_password
         RequestSchemas.b_password_confirm Schemas.email Schemas.password
         Schemas.password_confirm].
    split.
    + destruct be as [[a |] |]; [destruct (EmailStr a) as [e' |] eqn:He | |];
        (destruct bp as [[p' |] |];
         [destruct (Nat.ltb_spec (length p') 8) as [Hs | Hs];
          [| destruct (Nat.ltb_spec 100 (length p')) as [Hl | Hl]] | |]);
        destruct bc as [[c' |] |]; intros H; try discriminate H.
      injection H as -> -> ->. exists a. repeat split; try assumption; lia.
    + intros (a & -> & He & -> & Hp & ->). rewrite He.
      destruct (Nat.ltb_spec (length p) 8); [lia |].
      destruct (Nat.ltb_spec 100 (length p)); [lia |]. reflexivity.
  - intros [be bp bc] errs.
    unfold RequestSchemas.UserRegister_model_validate,
      RequestSchemas.required_str, Schemas.validate_email_field,
      Schemas.validate_password_field, Schemas.validate_password_strength,
      Schemas.validate_password_confirm_field, RequestSchemas.errors_of.
    cbn [RequestSchemas.b_email RequestSchemas.b_password
         RequestSchemas.b_password_confirm].
    destruct be as [[a |] |]; [destruct (EmailStr a) as [e |] eqn:He | |];
      (destruct bp as [[p |] |];
       [destruct (Nat.ltb_spec (length p) 8) as [Hs | Hs];
        [| destruct (Nat.ltb_spec 100 (length p)) as [Hl | Hl]] | |]);
      destruct bc as [[c |] |];
      cbn [map app fst snd]; intros H;
      first [discriminate H | injection H as <-];
      (split; [discriminate |]);
      (split; [repeat constructor; cbn [In]; intuition discriminate |]);
      (split; [| split]); intros k; cbn [In];
      (split;
       [ intros Hin;
         repeat (destruct Hin as [Hin | Hin];
                 [first [discriminate Hin
                        | injection Hin as <-; auto; fail] |]);
         first [contradiction | discriminate]
       | intros Hk ]).
    all: try (subst k; auto; fail).
    all: try contradiction.
    all: try (destruct Hk as [Hk ->]; first [discriminate Hk | auto]; fail).
    all: try (destruct Hk as [[Hk ->] | [Hk ->]]; first [lia | auto]; fail).
  - intros [a p c].
    unfold RequestSchemas.UserRegister_model_validate,
      Schemas.UserRegister_validate, RequestSchemas.required_str,
      RequestSchemas.errors_of, Schemas.errors_of.
    cbn [RequestSchemas.b_email RequestSchemas.b_password
         RequestSchemas.b_password_confirm Schemas.in_email
         Schemas.in_password Schemas.in_password_confirm].
    destruct (Schemas.validate_email_field EmailStr a) as [es | e];
      destruct (Schemas.validate_password_field p) as [ps | p'];
      destruct (Schemas.validate_password_confirm_field c) as [cs | c'];
      rewrite ?map_app, ?app_nil_r; reflexivity.
Qed.

End RegisterOutcome.

(** The two case analyses over a body of three required string fields, the
    middle one with the length bounds. *)
Ltac three_fields_accept b1 b2 b3 :=
  let p := fresh "pw" in
  let H := fresh "Hres" in
  split;
  [ destruct b1 as [[? |] |];
    (destruct b2 as [[p |] |];
     [destruct (Nat.ltb_spec (length p) 8);
      [| destruct (Nat.ltb_spec 100 (length p))] | |]);
    destruct b3 as [[? |] |]; intros H; try discriminate H;
    injection H as -> -> ->; repeat split; lia
  | intros (-> & -> & ? & ->);
    match goal with
    | |- context [(length ?v <? 8)%nat] =>
        destruct (Nat.ltb_spec (length v) 8); [lia |];
        destruct (Nat.ltb_spec 100 (length v)); [lia |]; reflexivity
    end ].

Ltac three_fields_report b1 b2 b3 :=
  let p := fresh "pw" in
  let H := fresh "Hres" in
  let Hin := fresh "Hmem" in
  let Hk := fresh "Hkind" in
  destruct b1 as [[? |] |];
  (destruct b2 as [[p |] |];
   [destruct (Nat.ltb_spec (length p) 8);
    [| destruct (Nat.ltb_spec 100 (length p))] | |]);
  destruct b3 as [[? |] |];
  cbn [map app fst snd]; intros H;
  first [discriminate H | injection H as <-];
  (split; [discriminate |]);
  (split; [repeat constructor; cbn [In]; intuition discriminate |]);
  repeat match goal with
         | |- _ /\ _ => split
         end;
  intros;
  cbn [In];
  try (split;
       [ intros Hin;
         repeat (destruct Hin as [Hin | Hin];
                 [first [discriminate Hin
                        | injection Hin as <-; auto; fail] |]);
         first [contradiction | discriminate]
       | intros Hk;
         first [ subst; auto; fail
               | contradiction
               | destruct Hk as [[Hk ->] | [Hk ->]]; first [lia | auto]; fail ]
       ]);
  try match goal with
      | Hin : In _ _ |- _ =>
          cbn [In] in Hin;
          repeat (destruct Hin as [Hin | Hin];
                  [injection Hin as <- <-; auto; fail |]);
          contradiction
      end.

(** X10: [PasswordResetConfirm] and [PasswordChange] accept a JSON body
    exactly when its three fields are present and are strings and
    [new_password] has 8 to 100 characters, and then keep the three strings
    as given: the confirmation is not compared with the new password, nor
    the new password with the current one. A refused body is reported
    field by field, at most one error each: [missing] for an absent field,
    [string_type] for one that is not a string, and for [new_password] too
    short below 8 and too long above 100 characters; [token],
    [current_password] and [new_password_confirm] are never reported for
    what they contain. *)
Theorem password_schemas_check_length_only :
  (forall (body : RequestSchemas.PasswordResetConfirmBody)
          (m : RequestSchemas.PasswordResetConfirm),
      RequestSchemas.PasswordResetConfirm_validate body = inr m
      <-> (RequestSchemas.b_token body
           = Some (RequestSchemas.JStr (RequestSchemas.token m))
           /\ RequestSchemas.b_new_password body
              = Some (RequestSchemas.JStr (RequestSchemas.new_password m))
           /\ (8 <= length (RequestSchemas.new_password m) <= 100)%nat
           /\ RequestSchemas.b_new_password_confirm body
              = Some (RequestSchemas.JStr
                        (RequestSchemas.new_password_confirm m))))
  /\ (forall (body : RequestSchemas.PasswordResetConfirmBody) errs,
         RequestSchemas.PasswordResetConfirm_validate body = inl errs ->
         errs <> []
         /\ NoDup (map fst errs)
         /\ (forall k,
                In (RequestSchemas.fld_token, k) errs
                <-> match RequestSchemas.b_token body with
                    | None => k = RequestSchemas.missing
                    | Some RequestSchemas.JOther =>
                        k = RequestSchemas.string_type
                    | Some (RequestSchemas.JStr _) => False
                    end)
         /\ (forall k,
                In (RequestSchemas.fld_new_password, k) errs
                <-> match RequestSchemas.b_new_password body with
                    | None => k = RequestSchemas.missing
                    | Some RequestSchemas.JOther =>
                        k = RequestSchemas.string_type
                    | Some (RequestSchemas.JStr p) =>
                        ((length p < 8)%nat
                         /\ k = RequestSchemas.invalid Schemas.string_too_short)
                        \/ ((100 < length p)%nat
                            /\ k = RequestSchemas.invalid
                                     Schemas.string_too_long)
                    end)
         /\ (forall k,
                In (RequestSchemas.fld_new_password_confirm, k) errs
                <-> match RequestSchemas.b_new_password_confirm body with
                    | None => k = RequestSchemas.missing
                    | Some RequestSchemas.JOther =>
                        k = RequestSchemas.string_type
                    | Some (RequestSchemas.JStr _) => False
                    end)
         /\ (forall f k,
                In (f, k) errs ->
                f = RequestSchemas.fld_token
                \/ f = RequestSchemas.fld_new_password
                \/ f = RequestSchemas.fld_new_password_confirm))
  /\ (forall (body : RequestSchemas.PasswordChangeBody)
             (m : RequestSchemas.PasswordChange),
         RequestSchemas.PasswordChange_validate body = inr m
         <-> (RequestSchemas.b_current_password body
              = Some (RequestSchemas.JStr (RequestSchemas.current_password m))
              /\ RequestSchemas.b_pc_new_password body
                 = Some (RequestSchemas.JStr (RequestSchemas.pc_new_password m))
              /\ (8 <= length (RequestSchemas.pc_new_password m) <= 100)%nat
              /\ RequestSchemas.b_pc_new_password_confirm body
                 = Some (RequestSchemas.JStr
                           (RequestSchemas.pc_new_password_confirm m))))
  /\ (forall (body : RequestSchemas.PasswordChangeBody) errs,
         RequestSchemas.PasswordChange_validate body = inl errs ->
         errs <> []
         /\ NoDup (map fst errs)
         /\ (forall k,
                In (RequestSchemas.fld_current_password, k) errs
                <-> match RequestSchemas.b_current_password body with
                    | None => k = RequestSchemas.missing
                    | Some RequestSchemas.JOther =>
                        k = RequestSchemas.string_type
                    | Some (RequestSchemas.JStr _) => False
                    end)
         /\ (forall k,
                In (RequestSchemas.fld_new_password, k) errs
                <-> match RequestSchemas.b_pc_new_password body with
                    | None => k = RequestSchemas.missing
                    | Some RequestSchemas.JOther =>
                        k = RequestSchemas.string_type
                    | Some (RequestSchemas.JStr p) =>
                        ((length p < 8)%nat
                         /\ k = RequestSchemas.invalid Schemas.string_too_short)
                        \/ ((100 < length p)%nat
                            /\ k = RequestSchemas.invalid
                                     Schemas.string_too_long)
                    end)
         /\ (forall k,
                In (RequestSchemas.fld_new_password_confirm, k) errs
                <-> match RequestSchemas.b_pc_new_password_confirm body with
                    | None => k = RequestSchemas.missing
                    | Some RequestSchemas.JOther =>
                        k = RequestSchemas.string_type
                    | Some (RequestSchemas.JStr _) => False
                    end)
         /\ (forall f k,
                In (f, k) errs ->
                f = RequestSchemas.fld_current_password
                \/ f = RequestSchemas.fld_new_password
                \/ f = RequestSchemas.fld_new_password_confirm)).
Proof.
  split; [| split; [| split]].
  - intros [bt bp bc] [t p c].
    unfold RequestSchemas.PasswordResetConfirm_validate,
      RequestSchemas.required_str, RequestSchemas.check_length_8_100,
      RequestSchemas.unconstrained.
    cbn [RequestSchemas.b_token RequestSchemas.b_new_password
         RequestSchemas.b_new_password_confirm RequestSchemas.token
         RequestSchemas.new_password RequestSchemas.new_password_confirm].
    three_fields_accept bt bp bc.
  - intros [bt bp bc] errs.
    unfold RequestSchemas.PasswordResetConfirm_validate,
      RequestSchemas.required_str, RequestSchemas.check_length_8_100,
      RequestSchemas.unconstrained, RequestSchemas.errors_of.
    cbn [RequestSchemas.b_token RequestSchemas.b_new_password
         RequestSchemas.b_new_password_confirm].
    three_fields_report bt bp bc.
  - intros [bo bp bc] [o p c].
    unfold RequestSchemas.PasswordChange_validate,
      RequestSchemas.required_str, RequestSchemas.check_length_8_100,
      RequestSchemas.unconstrained.
    cbn [RequestSchemas.b_current_password RequestSchemas.b_pc_new_password
         RequestSchemas.b_pc_new_password_confirm
         RequestSchemas.current_password RequestSchemas.pc_new_password
         RequestSchemas.pc_new_password_confirm].
    three_fields_accept bo bp bc.
  - intros [bo bp bc] errs.
    unfold RequestSchemas.PasswordChange_validate,
      RequestSchemas.required_str, RequestSchemas.check_length_8_100,
      RequestSchemas.unconstrained, RequestSchemas.errors_of.
    cbn [RequestSchemas.b_current_password RequestSchemas.b_pc_new_password
         RequestSchemas.b_pc_new_password_confirm].
    three_fields_report bo bp bc.
Qed.

(* ====================================================================== *)
(** * The session dependency *)
(* ====================================================================== *)

Section SessionDependency.

Variable E : Type.
Variable is_Exception : E -> bool.
Variables commit_error rollback_error close_error : option E.
Variable A : Type.

(** X11: whatever the request and the database do, [get_db] ends with
    closing the session (in [finally] and again on leaving [async with]);
    before that it commits exactly when the request returned, and rolls
    back exactly when an [Exception] came out of the request or of the
    commit. *)
Theorem get_db_commits_or_rolls_back_then_closes :
  forall (request : GetDb.Session -> GetDb.ended E A * GetDb.Session)
         (session : GetDb.Session),
    exists ops,
      snd (GetDb.get_db is_Exception commit_error rollback_error
             close_error request session)
      = snd (request session) ++ ops ++ [GetDb.Close; GetDb.Close]
      /\ ~ In GetDb.Close ops
      /\ (In GetDb.Commit ops
          <-> exists a, fst (request session) = GetDb.Done a)
      /\ (In GetDb.Rollback ops
          <-> exists e,
              is_Exception e = true
              /\ (fst (request session) = GetDb.Failed e
                  \/ ((exists a, fst (request session) = GetDb.Done a)
                      /\ commit_error = Some e))).
Proof.
  intros request session. unfold GetDb.get_db, GetDb.call.
  destruct (request session) as [[a | e] s1]; cbn [fst snd].
  - destruct commit_error as [ce |] eqn:Hce.
    + destruct (is_Exception ce) eqn:Hexc.
      * exists [GetDb.Commit; GetDb.Rollback].
        split; [destruct rollback_error, close_error; cbn [snd];
                rewrite <- ?app_assoc; reflexivity |].
        split; [cbn [In]; intuition discriminate |].
        split; [split; [intros _; eexists; reflexivity | cbn [In]; auto] |].
        split; [intros _; exists ce; split; [exact Hexc |];
                right; split; [eexists; reflexivity | reflexivity]
               | cbn [In]; auto].
      * exists [GetDb.Commit].
        split; [destruct close_error; cbn [snd];
                rewrite <- ?app_assoc; reflexivity |].
        split; [cbn [In]; intuition discriminate |].
        split; [split; [intros _; eexists; reflexivity | cbn [In]; auto] |].
        split; [cbn [In]; intuition discriminate |].
        intros (e & He & [Hf | [_ Hc]]); [discriminate Hf |].
        injection Hc as <-. rewrite Hexc in He. discriminate He.
    + exists [GetDb.Commit].
      split; [destruct close_error; cbn [snd];
              rewrite <- ?app_assoc; reflexivity |].
      split; [cbn [In]; intuition discriminate |].
      split; [split; [intros _; eexists; reflexivity | cbn [In]; auto] |].
      split; [cbn [In]; intuition discriminate |].
      intros (e & He & [Hf | [_ Hc]]); discriminate.
  - destruct (is_Exception e) eqn:Hexc.
    + exists [GetDb.Rollback].
      split; [destruct rollback_error, close_error; cbn [snd];
              rewrite <- ?app_assoc; reflexivity |].
      split; [cbn [In]; intuition discriminate |].
      split; [split; [cbn [In]; intuition discriminate
                     | intros [a Ha]; discriminate Ha] |].
      split; [intros _; exists e; split; [exact Hexc | now left]
             | cbn [In]; auto].
    + exists [].
      split; [destruct close_error; cbn [snd];
              rewrite <- ?app_assoc; reflexivity |].
      split; [intros []|].
      split; [split; [intros [] | intros [a Ha]; discriminate Ha] |].
      split; [intros [] |].
      intros (e' & He & [Hf | [[a Ha] _]]); [| discriminate Ha].
      injection Hf as <-. rewrite Hexc in He. discriminate He.
Qed.

End SessionDependency.

Section SessionDependencyHealthy.

Variable E : Type.
Variable is_Exception : E -> bool.
Variable A : Type.

(** X12: with a database that answers every call, [get_db] hands the
    outcome of the request through unchanged: the value it returned, after
    one commit, or the very exception it raised, after one rollback (none
    for what is not an [Exception]). *)
Theorem get_db_passes_outcome_through :
  forall (request : GetDb.Session -> GetDb.ended E A * GetDb.Session)
         (session : GetDb.Session),
    fst (GetDb.get_db is_Exception None None None request session)
    = fst (request session)
    /\ snd (GetDb.get_db is_Exception None None None request session)
       = snd (request session)
         ++ match fst (request session) with
            | GetDb.Done _ => [GetDb.Commit]
            | GetDb.Failed e =>
                if is_Exception e then [GetDb.Rollback] else []
            end
         ++ [GetDb.Close; GetDb.Close].
Proof.
  intros request session. unfold GetDb.get_db, GetDb.call.
  destruct (request session) as [[a | e] s1]; cbn [fst snd].
  - split; [reflexivity | now rewrite <- !app_assoc].
  - destruct (is_Exception e); cbn [fst snd];
      (split; [reflexivity | now rewrite <- !app_assoc]).
Qed.

End SessionDependencyHealthy.

(* ====================================================================== *)
(** * Endpoints inside the session dependency *)
(* ====================================================================== *)

Lemma pending_through_get_db (A : Type) (session : GetDb.Session) :
  GetDb.get_db Endpoints.is_Exception None None None
    (Endpoints.as_request (@Endpoints.pending A)) session
  = (GetDb.Failed
       (Builtins.HTTPException Builtins.HTTP_501_NOT_IMPLEMENTED
          Endpoints.pending_detail),
     session ++ [GetDb.Rollback; GetDb.Close; GetDb.Close]).
Proof.
  unfold GetDb.get_db, GetDb.call, Endpoints.as_request, Endpoints.pending,
    Endpoints.is_Exception.
  now rewrite <- !app_assoc.
Qed.

(** X13: the handlers of the router, each called with a body that its
    schema has validated and run inside [get_db] over a database that
    answers every call: those of register, log in, log out, refresh,
    confirm a reset and change a password end in [HTTPException] 501 after
    one rollback and the closing of the session, for every validated body;
    the one of a password-reset request ends in the generic message after
    one commit and the closing. *)
Theorem endpoints_through_get_db :
  forall (db : Database.AsyncSession) (session : GetDb.Session),
    let not_implemented A :=
      (@GetDb.Failed Builtins.raised A
         (Builtins.HTTPException 501 Endpoints.pending_detail),
       session ++ [GetDb.Rollback; GetDb.Close; GetDb.Close]) in
    (forall user_data,
        GetDb.get_db Endpoints.is_Exception None None None
          (Endpoints.as_request (Endpoints.register user_data db)) session
        = not_implemented _)
    /\ (forall credentials,
           GetDb.get_db Endpoints.is_Exception None None None
             (Endpoints.as_request (Endpoints.login credentials db)) session
           = not_implemented _)
    /\ (forall body,
           GetDb.get_db Endpoints.is_Exception None None None
             (Endpoints.as_request (Endpoints.logout body db)) session
           = not_implemented _)
    /\ (forall body,
           GetDb.get_db Endpoints.is_Exception None None None
             (Endpoints.as_request (Endpoints.refresh_token body db)) session
           = not_implemented _)
    /\ (forall body,
           GetDb.get_db Endpoints.is_Exception None None None
             (Endpoints.as_request (Endpoints.confirm_password_reset body db))
             session
           = not_implemented _)
    /\ (forall body,
           GetDb.get_db Endpoints.is_Exception None None None
             (Endpoints.as_request (Endpoints.change_password body db)) session
           = not_implemented _)
    /\ (forall request_data,
           GetDb.get_db Endpoints.is_Exception None None None
             (Endpoints.as_request_py
                (fst (Router.request_password_reset request_data db))) session
           = (GetDb.Done (Schemas.MessageResponse_new Router.reset_message),
              session ++ [GetDb.Commit; GetDb.Close; GetDb.Close])).
Proof.
  intros db session not_implemented.
  repeat split; intros; try apply pending_through_get_db.
  unfold GetDb.get_db, GetDb.call, Endpoints.as_request_py,
    Router.request_password_reset. cbn [fst].
  now rewrite <- !app_assoc.
Qed.

(* ====================================================================== *)
(** * Authentication dependencies *)
(* ====================================================================== *)

(** X14: no dependency ever yields a user. [get_current_user_optional]
    returns [None] for every token, present or not, and never raises. The
    chains that [Depends] builds over [oauth2_scheme] and
    [get_current_user] (the user, active, verified, one role, several
    roles) never return: when the scheme hands over a token they end in
    [HTTPException] 501, before any flag or role of an account is looked
    at, and when the scheme raises (its 401 for a request without bearer
    token) they end in that exception. *)
Theorem dependencies_never_authenticate :
  forall (db : Database.AsyncSession),
    (forall token : option str,
        Dependencies.get_current_user_optional token db
        = Builtins.Returns None)
    /\ (forall (bearer : Builtins.outcome str) (required_role : str)
               (allowed_roles : list str),
           let chain_end :=
             match bearer with
             | Builtins.Returns _ =>
                 Builtins.Raises
                   (Builtins.HTTPException 501
                      Dependencies.not_implemented_detail)
             | Builtins.Raises r => Builtins.Raises r
             end in
           Dependencies.resolve_user bearer db = chain_end
           /\ Dependencies.resolve_active bearer db = chain_end
           /\ Dependencies.resolve_verified bearer db = chain_end
           /\ Dependencies.resolve_role required_role bearer db = chain_end
           /\ Dependencies.resolve_roles allowed_roles bearer db = chain_end
           /\ (forall user : Models.User, chain_end <> Builtins.Returns user)).
Proof.
  intros db. split.
  - intros [[| c t] |]; reflexivity.
  - intros [token | r] required_role allowed_roles chain_end;
      repeat split; discriminate.
Qed.

(* ====================================================================== *)
(** * The lockout handlers in sequence *)
(* ====================================================================== *)

Lemma after_attempts_unchanged (self : AuthService.AuthService)
    (user : Models.User) (attempts : list LoginAttempts.attempt) :
  LoginAttempts.after_attempts self user attempts = (self, user).
Proof.
  unfold LoginAttempts.after_attempts.
  induction attempts as [| a attempts IH]; [reflexivity |].
  cbn [fold_left]. destruct a; exact IH.
Qed.

(** X15: no sequence of failed and successful logins changes an account:
    after any number of wrong passwords the counter of failed attempts and
    [locked_until] are what they were, and [_is_user_locked] still answers
    [False]; the lockout never engages. *)
Theorem lockout_never_engages :
  forall (self : AuthService.AuthService) (user : Models.User)
         (attempts : list LoginAttempts.attempt),
    snd (LoginAttempts.after_attempts self user attempts) = user
    /\ Models.failed_login_attempts
         (snd (LoginAttempts.after_attempts self user attempts))
       = Models.failed_login_attempts user
    /\ Models.locked_until
         (snd (LoginAttempts.after_attempts self user attempts))
       = Models.locked_until user
    /\ AuthService._is_user_locked
         (fst (LoginAttempts.after_attempts self user attempts))
         (snd (LoginAttempts.after_attempts self user attempts))
       = false.
Proof.
  intros self user attempts. rewrite after_attempts_unchanged.
  repeat split.
Qed.

(* ====================================================================== *)
(** * Refresh tokens over time *)
(* ====================================================================== *)

(** X16: a refresh token that is valid at some instant was valid at every
    earlier instant; put the other way, once [is_valid] has turned
    [False] for a record it stays [False] as the clock advances. A revoked
    record is valid at no instant. *)
Theorem is_valid_antitone_in_time :
  forall (t : Models.RefreshToken) (earlier later : datetime),
    (earlier <= later)%Z ->
    (Models.is_valid later t = true -> Models.is_valid earlier t = true)
    /\ (Models.is_valid earlier t = false -> Models.is_valid later t = false)
    /\ (Models.revoked t = true -> Models.is_valid later t = false).
Proof.
  intros t earlier later Hle. unfold Models.is_valid.
  destruct (Models.revoked t);
    [repeat split; intros; first [reflexivity | discriminate] |].
  destruct (Z.gtb_spec later (Models.expires_at t));
    destruct (Z.gtb_spec earlier (Models.expires_at t));
    repeat split; intros; first [reflexivity | discriminate | lia].
Qed.

Lemma is_valid_antitone_in_time_witness :
  (500 <= 1000)%Z
  /\ (Models.is_valid 1000%Z Examples.token_1000 = true ->
      Models.is_valid 500%Z Examples.token_1000 = true).
Proof.
  split; [lia |].
  exact (proj1 (is_valid_antitone_in_time Examples.token_1000 500%Z 1000%Z
                  ltac:(lia))).
Defined.

(* ====================================================================== *)
(** * More on [hash_password] and [verify_password] *)
(* ====================================================================== *)

Section PasswordsFurther.

Variable bcrypt_raw : str -> N -> str -> bytes -> N.

Lemma default_digest_well_formed (s : str) (key : bytes) :
  length s = 22%nat ->
  Forall (fun c => In c Passlib.bcrypt64_charmap) s ->
  Spec.is_bcrypt_digest (Passlib.default_digest bcrypt_raw s key)
  /\ length (Passlib.default_digest bcrypt_raw s key) = 60%nat
  /\ startswith (pystr "$2b$12$") (Passlib.default_digest bcrypt_raw s key)
     = true.
Proof.
  intros Hls Hcs. unfold Passlib.default_digest, Passlib.to_string.
  cbn [Passlib.ident Passlib.rounds Passlib.salt Passlib.checksum].
  split; [| split].
  - exists Passlib.IDENT_2B, 12%N, s,
      (Passlib.encode_checksum
         (bcrypt_raw Passlib.IDENT_2B 12%N s (firstn 72 key))).
    split; [cbn [In]; auto |]. split; [lia |].
    split; [exact Hls |]. split; [exact Hcs |].
    split; [apply encode_checksum_length |].
    split; [apply encode_checksum_charmap | reflexivity].
  - rewrite !length_app, Hls, encode_checksum_length. reflexivity.
  - change (Passlib.IDENT_2B ++ Passlib.two_digits 12 ++ [Passlib.dollar]
            ++ s ++ Passlib.encode_checksum
                      (bcrypt_raw Passlib.IDENT_2B 12%N s (firstn 72 key)))
      with (pystr "$2b$12$" ++ s
            ++ Passlib.encode_checksum
                 (bcrypt_raw Passlib.IDENT_2B 12%N s (firstn 72 key))).
    apply startswith_app.
Qed.

(** X17: every digest that [hash_password] returns is a well-formed bcrypt
    digest of exactly 60 characters that starts with [$2b$12$]. *)
Theorem hash_password_digest_shape :
  forall (P : str) (rng rng' : Passlib.Rng) (d : str),
    Security.hash_password bcrypt_raw P rng = (Ret d, rng') ->
    Spec.is_bcrypt_digest d
    /\ length d = 60%nat
    /\ startswith (pystr "$2b$12$") d = true.
Proof.
  intros P rng rng' d Hh.
  unfold Security.hash_password, Passlib.CryptContext_hash in Hh.
  apply hash_returns_inv in Hh. destruct Hh as (key & _ & _ & ->).
  apply default_digest_well_formed;
    [apply generate_salt_length | apply generate_salt_charmap].
Qed.

Lemma utf8_encode_keeps_nul (s : str) (key : bytes) :
  In 0%N s -> utf8_encode s = Ret key -> In 0%N key.
Proof.
  revert key. induction s as [| c s IH]; intros key; [intros [] |].
  cbn [utf8_encode].
  destruct (utf8_encode_char c) as [bs |] eqn:Hc; [| discriminate].
  destruct (utf8_encode s) as [rest | e]; [| discriminate].
  intros Hin H. injection H as <-. apply in_or_app.
  destruct Hin as [-> | Hin].
  - left. vm_compute in Hc. injection Hc as <-. now left.
  - right. now apply IH.
Qed.

Lemma nul_not_accepted (P : str) (key : bytes) :
  In 0%N P -> ~ Passlib.accepts P key.
Proof.
  intros Hin [_ Hk]. unfold Passlib.norm_digest_args in Hk.
  destruct (utf8_encode P) as [k | e] eqn:He; cbn [Py.bind] in Hk;
    [| discriminate].
  destruct (Passlib.validate_secret k) as [[] | e]; cbn [Py.bind] in Hk;
    [| discriminate].
  destruct (existsb (N.eqb 0) k) eqn:Hex; [discriminate |].
  assert (Hk0 : In 0%N k) by exact (utf8_encode_keeps_nul P k Hin He).
  assert (Htrue : existsb (N.eqb 0) k = true).
  { apply existsb_exists. exists 0%N. split; [exact Hk0 | reflexivity]. }
  rewrite Htrue in Hex. discriminate.
Qed.

(** X18: [hash_password] returns a digest exactly for the passwords that
    the hasher accepts, and raises for the others: a password with a NUL
    character gets no digest, and one of more than 4096 characters is
    refused with [PasswordSizeError] before any salt is drawn. *)
Theorem hash_password_refusals :
  forall (P : str) (rng : Passlib.Rng),
    ((exists d rng', Security.hash_password bcrypt_raw P rng = (Ret d, rng'))
     <-> exists key, Passlib.accepts P key)
    /\ (In 0%N P ->
        exists e rng', Security.hash_password bcrypt_raw P rng = (Raise e, rng'))
    /\ ((4096 < length P)%nat ->
        Security.hash_password bcrypt_raw P rng = (Raise PasswordSizeError, rng)).
Proof.
  intros P rng. unfold Security.hash_password, Passlib.CryptContext_hash.
  assert (Hiff : (exists d rng', Passlib.hash bcrypt_raw P rng = (Ret d, rng'))
                 <-> exists key, Passlib.accepts P key).
  { split.
    - intros (d & rng' & Hh). apply hash_returns_inv in Hh.
      destruct Hh as (key & Hk & _). now exists key.
    - intros (key & Hk). rewrite (hash_returns bcrypt_raw P key rng Hk).
      eexists _, _. reflexivity. }
  split; [exact Hiff |]. split.
  - intros Hnul.
    destruct (Passlib.hash bcrypt_raw P rng) as [[d | e] rng'] eqn:Hh.
    + exfalso. destruct (proj1 Hiff) as (key & Hk);
        [eexists _, _; reflexivity |].
      exact (nul_not_accepted P key Hnul Hk).
    + eexists _, _. reflexivity.
  - intros Hlong. unfold Passlib.hash, Passlib.validate_secret,
      Passlib.MAX_PASSWORD_SIZE.
    destruct (Nat.ltb_spec 4096 (length P)) as [_ | H]; [reflexivity | lia].
Qed.

(** X19: for a password that the hasher accepts and a well-formed digest,
    [verify_password] returns a boolean; with C2 this makes the malformed
    digests the only ones it raises on, for such passwords. *)
Theorem verify_password_returns_on_well_formed :
  forall (P : str) (key : bytes) (d : str),
    Passlib.accepts P key ->
    Spec.is_bcrypt_digest d ->
    exists b, Security.verify_password bcrypt_raw P d = Ret b.
Proof.
  intros P key d [Hv Hk] (i & r & s & chk & Hi & Hr & Hls & Hcs & Hlc & Hcc & ->).
  unfold Security.verify_password, Passlib.CryptContext_verify.
  destruct (parse_ident_complete i
              (Passlib.two_digits r ++ [Passlib.dollar] ++ s ++ chk) Hi)
    as (_ & _ & ->).
  unfold Passlib.verify. rewrite Hv. cbn [Py.bind].
  rewrite (from_string_complete i r s chk Hi Hr Hls Hcs Hlc Hcc).
  cbn [Py.bind Passlib.checksum]. unfold Passlib.calc_checksum.
  rewrite Hk. cbn [Py.bind]. eexists. reflexivity.
Qed.

End PasswordsFurther.

Lemma hash_password_digest_shape_witness :
  Security.hash_password Examples.example_raw (pystr "Secret123")
    Examples.example_rng
  = (Ret Examples.first_digest, Examples.rng_after 1)
  /\ length Examples.first_digest = 60%nat
  /\ startswith (pystr "$2b$12$") Examples.first_digest = true.
Proof.
  assert (H : Security.hash_password Examples.example_raw (pystr "Secret123")
                Examples.example_rng
              = (Ret Examples.first_digest, Examples.rng_after 1))
    by (vm_compute; reflexivity).
  split; [exact H |].
  exact (proj2 (hash_password_digest_shape Examples.example_raw
                  (pystr "Secret123") Examples.example_rng
                  (Examples.rng_after 1) Examples.first_digest H)).
Defined.

Lemma first_digest_well_formed : Spec.is_bcrypt_digest Examples.first_digest.
Proof.
  exists Passlib.IDENT_2B, 12%N, (pystr "jzdYjpO3AIqMXBntGwJc5e"),
    (pystr "MLWIiFCIZa/kvI3nPWZ7GnxLOElxbtO").
  split; [cbn [In]; auto |]. split; [lia |].
  split; [vm_compute; reflexivity |].
  split; [apply forallb_in_charmap; vm_compute; reflexivity |].
  split; [vm_compute; reflexivity |].
  split; [apply forallb_in_charmap; vm_compute; reflexivity |].
  vm_compute. reflexivity.
Qed.

Lemma verify_password_returns_on_well_formed_witness :
  Passlib.accepts (pystr "Secret124") (pystr "Secret124")
  /\ Spec.is_bcrypt_digest Examples.first_digest
  /\ exists b,
      Security.verify_password Examples.example_raw (pystr "Secret124")
        Examples.first_digest = Ret b.
Proof.
  assert (Ha : Passlib.accepts (pystr "Secret124") (pystr "Secret124"))
    by (split; vm_compute; reflexivity).
  split; [exact Ha |]. split; [exact first_digest_well_formed |].
  exact (verify_password_returns_on_well_formed Examples.example_raw
           (pystr "Secret124") (pystr "Secret124") Examples.first_digest
           Ha first_digest_well_formed).
Defined.
